(** * The Konverzky / Stripe / Fiken invoice handlers

    A shallow embedding of the two Lambda handlers of the repository:

    - [KonverzkyOrderConsumer.handler] (src/KonverzkyOrderConsumer.js), which
      stores the items of a Konverzky order in the DynamoDB table, and
    - [StripeProcessor.handler] with [processStripeEvent],
      [sendRetryMessage] and [sendManualOrderNotification]
      (src/unnamed/part_000), which joins a Stripe charge with the stored
      order and files the invoice in Fiken.

    JavaScript values are modelled as they are at run time: dynamically
    typed JSON-like values, numbers as IEEE binary64 floats, property reads
    that throw on [null] and [undefined], truthiness as the language defines
    it.  The outside world (DynamoDB, SQS, SNS, fetch, the clock) answers
    through an explicit record of outcomes, and every call made is recorded
    in a trace. *)

From Stdlib Require Import ZArith String Ascii List Bool DecimalString.
From Stdlib Require Import Floats.PrimFloat Floats.SpecFloat Floats.FloatOps.
From stdpp Require Import base option list strings gmap.

Set Warnings "-register-all,-inexact-float".

Local Open Scope string_scope.
Local Open Scope list_scope.

(** ** JavaScript values *)

Module JS.

Inductive value : Type :=
| VUndefined
| VNull
| VBool (b : bool)
| VNum (n : float)
| VStr (s : string)
| VArr (elems : list value)
| VObj (props : list (string * value)).

(** Thrown values.  [Error] is [new Error(message)]; the rejections of the
    SDK clients and of [fetch] are [Error] objects too.  [TypeError] and
    [SyntaxError] are raised by the language itself; their message is the
    engine's wording, of which the model keeps a description. *)
Inductive exn : Type :=
| Error (message : string)
| TypeError (message : string)
| SyntaxError (message : string).

(** [error.message] *)
Definition message (e : exn) : string :=
  match e with
  | Error m | TypeError m | SyntaxError m => m
  end.

(** The outcome of evaluating an expression: a thrown value or a result. *)
Definition result (A : Type) : Type := exn + A.

Definition throw {A} (e : exn) : result A := inl e.
Definition ret {A} (a : A) : result A := inr a.

Definition rbind {A B} (m : result A) (k : A -> result B) : result B :=
  match m with
  | inl e => inl e
  | inr a => k a
  end.

Declare Scope js_scope.
Delimit Scope js_scope with js.
Notation "x <- m ;; k" := (rbind m (fun x => k))
  (at level 100, m at next level, right associativity) : js_scope.

(** What the language runtime provides and the repository does not
    define.  The development is parametric in it. *)
Class Runtime : Type := {
  (** [Number.prototype.toString], the shortest decimal that reads back *)
  Number_toString : float -> string;
  (** the conversion of a string to a number, as [*] and [>] apply it *)
  StringToNumber : string -> float;
  (** [String.prototype.toUpperCase] *)
  String_toUpperCase : string -> string;
  String_toUpperCase_nonempty :
    forall s, String_toUpperCase s = "" -> s = "";
  (** the code points of a string, as the spread [[...s]] yields them *)
  String_iterator : string -> list string;
  (** [JSON.stringify(v, null, space)]; [None] is [undefined] *)
  JSON_stringify : value -> nat -> option string;
  (** [new Date(ms).toISOString()] *)
  Date_toISOString : Z -> string
}.

(** [!!v] *)
Definition truthy (v : value) : bool :=
  match v with
  | VUndefined | VNull => false
  | VBool b => b
  | VNum n => negb (PrimFloat.is_zero n) && negb (PrimFloat.is_nan n)
  | VStr s => negb (String.eqb s "")
  | VArr _ | VObj _ => true
  end.

Definition falsy (v : value) : bool := negb (truthy v).

(** [a || b] *)
Definition or_else (a b : value) : value := if truthy a then a else b.

Fixpoint float_of_nat (n : nat) : float :=
  match n with
  | O => PrimFloat.zero
  | S m => PrimFloat.add (float_of_nat m) PrimFloat.one
  end.

(** Own property of an object, in insertion order. *)
Fixpoint own (props : list (string * value)) (k : string) : option value :=
  match props with
  | [] => None
  | (k', v) :: rest => if String.eqb k' k then Some v else own rest k
  end.

(** [v.k] for the property names the handlers read: none of them is a
    method or an accessor of a prototype, apart from [length].  The length
    of a string is that of its UTF-8 text; the handlers only compare it
    with 0. *)
Definition get (v : value) (k : string) : result value :=
  match v with
  | VUndefined | VNull =>
      throw (TypeError ("Cannot read properties of " +:+
                        (if v is VNull then "null" else "undefined") +:+
                        " (reading '" +:+ k +:+ "')"))
  | VObj props => ret (default VUndefined (own props k))
  | VArr elems =>
      ret (if String.eqb k "length" then VNum (float_of_nat (length elems))
          else VUndefined)
  | VStr s =>
      ret (if String.eqb k "length" then VNum (float_of_nat (String.length s))
          else VUndefined)
  | VBool _ | VNum _ => ret VUndefined
  end.

(** [Array.isArray(v)] *)
Definition isArray (v : value) : bool :=
  match v with VArr _ => true | _ => false end.

(** SameValueZero, the equality of [Array.prototype.includes] and of [Set].
    Objects and arrays are compared by reference; the objects met here are
    freshly parsed, so two of them are never the same one. *)
Definition SameValueZero (a b : value) : bool :=
  match a, b with
  | VUndefined, VUndefined | VNull, VNull => true
  | VBool x, VBool y => Bool.eqb x y
  | VNum x, VNum y =>
      PrimFloat.eqb x y || (PrimFloat.is_nan x && PrimFloat.is_nan y)
  | VStr x, VStr y => String.eqb x y
  | _, _ => false
  end.

(** [xs.includes(v)] *)
Definition includes (xs : list value) (v : value) : bool :=
  existsb (SameValueZero v) xs.

(** [Array.from(new Set(xs))]: the first occurrence of each element, in
    order of insertion. *)
Definition Set_add (s : list value) (x : value) : list value :=
  if includes s x then s else s ++ [x].

Definition Array_from_Set (xs : list value) : list value :=
  fold_left Set_add xs [].

(** [xs.map(f)] *)
Fixpoint Array_map (f : value -> result value) (xs : list value)
  : result (list value) :=
  match xs with
  | [] => ret []
  | x :: rest =>
      (y <- f x ;; ys <- Array_map f rest ;; ret (y :: ys))%js
  end.

Section WithRuntime.
Context {rt : Runtime}.

Local Open Scope js_scope.

(** ToString, as template literals apply it.  An object parsed from JSON
    holds no function: if it has an own [toString] the conversion finds
    nothing callable and throws, otherwise [Object.prototype.toString]
    answers.  Arrays join their elements. *)
Fixpoint ToString (v : value) : result string :=
  match v with
  | VUndefined => ret "undefined"
  | VNull => ret "null"
  | VBool b => ret (if b then "true" else "false")
  | VNum n => ret (Number_toString n)
  | VStr s => ret s
  | VArr elems =>
      (fix join (l : list value) : result string :=
         match l with
         | [] => ret ""
         | x :: rest =>
             s <- match x with
                  | VUndefined | VNull => ret ""
                  | _ => ToString x
                  end ;;
             match rest with
             | [] => ret s
             | _ => r <- join rest ;; ret (s +:+ "," +:+ r)
             end
         end) elems
  | VObj props =>
      match own props "toString" with
      | Some _ => throw (TypeError "Cannot convert object to primitive value")
      | None => ret "[object Object]"
      end
  end.

(** [v.toString()] *)
Definition toString (v : value) : result string :=
  match v with
  | VUndefined | VNull =>
      throw (TypeError "Cannot read properties of undefined (reading 'toString')")
  | VObj props =>
      match own props "toString" with
      | Some _ => throw (TypeError "toString is not a function")
      | None => ret "[object Object]"
      end
  | _ => ToString v
  end.

(** ToNumber, as [*] and [>] apply it. *)
Definition ToNumber (v : value) : result float :=
  match v with
  | VUndefined => ret PrimFloat.nan
  | VNull => ret PrimFloat.zero
  | VBool b => ret (if b then PrimFloat.one else PrimFloat.zero)
  | VNum n => ret n
  | VStr s => ret (StringToNumber s)
  | VArr _ | VObj _ => s <- ToString v ;; ret (StringToNumber s)
  end.

(** [a * b] *)
Definition mul (a b : value) : result value :=
  x <- ToNumber a ;; y <- ToNumber b ;; ret (VNum (PrimFloat.mul x y)).

(** [v.toUpperCase()] *)
Definition toUpperCase (v : value) : result value :=
  match v with
  | VStr s => ret (VStr (String_toUpperCase s))
  | VUndefined | VNull =>
      throw (TypeError "Cannot read properties of undefined (reading 'toUpperCase')")
  | _ => throw (TypeError "toUpperCase is not a function")
  end.

(** [JSON.stringify(v)] and [JSON.stringify(v, null, 2)] *)
Definition stringify (v : value) : value :=
  match JSON_stringify v 0 with Some s => VStr s | None => VUndefined end.

Definition stringify2 (v : value) : value :=
  match JSON_stringify v 2 with Some s => VStr s | None => VUndefined end.

(** [[...v]] *)
Definition spread (v : value) : result (list value) :=
  match v with
  | VArr elems => ret elems
  | VStr s => ret (map VStr (String_iterator s))
  | _ => throw (TypeError "value is not iterable")
  end.

End WithRuntime.

End JS.

(** ** The services the handlers call *)

Module Cloud.
Import JS.

(** [console.log], [console.warn], [console.error].  The text written is
    left out; evaluating it is kept wherever it can throw. *)
Inductive level : Type := Log | Warn | Err.

(** The calls a handler makes, in the order it makes them. *)
Inductive effect : Type :=
| Console (l : level)
| DynamoGet (TableName : option string) (order_id : string)
| DynamoPut (TableName : option string) (Item : value)
| SqsSendMessage (QueueUrl : option string) (MessageBody : value)
    (DelaySeconds : Z)
| SnsPublish (TopicArn : option string) (Subject : string) (Message : value)
| Fetch (url method authorization : string) (body : value).

(** What [fetch] resolves with: [ok], [status], the outcomes of [text()]
    and of [json()], and [headers.get("Location")] ([None] is [null]). *)
Record Response : Type := {
  resp_ok : bool;
  resp_status : float;
  resp_text : result string;
  resp_json : result value;
  resp_Location : option string
}.

(** How the outside world answers during one invocation.  A service call
    either rejects with an error or resolves with its output object. *)
Record world : Type := {
  clock : Z;
  dynamo_get_fault : string -> option exn;
  dynamo_put_fault : value -> option exn;
  sqs_send : value -> result (list (string * value));
  sns_publish : string -> value -> result (list (string * value));
  fetch : string -> string -> value -> result Response
}.

(** The table of orders: the attributes of each item, by [order_id]. *)
Abbreviation table := (gmap string (list (string * value))).

Record state : Type := {
  orders : table;
  trace : list effect
}.

(** The Lambda proxy response. *)
Record response : Type := {
  statusCode : float;
  body : value
}.

(** Computations that call services: they read and write the table,
    extend the trace, and may throw. *)
Definition M (A : Type) : Type := state -> result A * state.

Definition pure {A} (a : A) : M A := fun st => (inr a, st).
Definition raise {A} (e : exn) : M A := fun st => (inl e, st).

Definition bind {A B} (m : M A) (k : A -> M B) : M B :=
  fun st =>
    match m st with
    | (inl e, st') => (inl e, st')
    | (inr a, st') => k a st'
    end.

(** A pure expression evaluated inside a computation. *)
Definition lift {A} (r : result A) : M A := fun st => (r, st).

(** [try { m } catch (err) { ... }]: the outcome of [m], caught. *)
Definition attempt {A} (m : M A) : M (result A) :=
  fun st => let (r, st') := m st in (inr r, st').

Definition emit (e : effect) : M unit :=
  fun st => (inr tt, {| orders := orders st; trace := trace st ++ [e] |}).

Definition console (l : level) : M unit := emit (Console l).

Declare Scope io_scope.
Delimit Scope io_scope with io.
Notation "x <- m ;; k" := (bind m (fun x => k))
  (at level 100, m at next level, right associativity) : io_scope.
Notation "m ;; k" := (bind m (fun _ => k))
  (at level 100, right associativity) : io_scope.

Local Open Scope io_scope.

(** [(await dynamo.send(new GetCommand({TableName, Key: {order_id}}))).Item] *)
Definition dynamo_Get (w : world) (TableName : option string)
  (order_id : string) : M value :=
  emit (DynamoGet TableName order_id) ;;
  match dynamo_get_fault w order_id with
  | Some err => raise err
  | None =>
      fun st =>
        (inr (match orders st !! order_id with
              | Some attrs => VObj attrs
              | None => VUndefined
              end), st)
  end.

(** [await dynamo.send(new PutCommand({TableName, Item}))]: the item
    replaces the one stored under its key attribute [order_id]. *)
Definition dynamo_Put (w : world) (TableName : option string)
  (Item : value) : M unit :=
  emit (DynamoPut TableName Item) ;;
  match dynamo_put_fault w Item with
  | Some err => raise err
  | None =>
      match Item with
      | VObj attrs =>
          match own attrs "order_id" with
          | Some (VStr k) =>
              fun st =>
                (inr tt, {| orders := <[k := attrs]> (orders st);
                            trace := trace st |})
          | _ => raise (Error "The provided key element does not match the schema")
          end
      | _ => raise (Error "The provided key element does not match the schema")
      end
  end.

(** [context.callbackWaitsForEmptyEventLoop = false], in module (strict)
    code: assigning a property of anything but an object throws. *)
Definition set_callbackWaitsForEmptyEventLoop (context : value) : M unit :=
  match context with
  | VObj _ | VArr _ => pure tt
  | _ => raise (TypeError "Cannot set properties of a value that is not an object")
  end.

(** What a computation returns, when it returns. *)
Definition post {A} (m : M A) (Q : A -> Prop) : Prop :=
  forall st a st', m st = (inr a, st') -> Q a.

(** A success response. *)
Definition succeeds (r : response) : Prop := statusCode r = 200%float.

(** [{ statusCode, body: JSON.stringify(payload) }] *)
Definition respond {rt : Runtime} (code : float) (payload : value) : response :=
  {| statusCode := code; body := stringify payload |}.

End Cloud.

(** ** src/KonverzkyOrderConsumer.js *)

Module KonverzkyOrderConsumer.
Import JS Cloud.

Section Handler.
Context {rt : Runtime}.

Local Open Scope io_scope.

Definition allowedWebhookTypes : list value :=
  [VStr "upsell_paid"; VStr "product_paid"; VStr "order_paid"].

(** [item => ({ name: item.name, id: item.id, quantity: item.quantity,
    unit_price: item.unit_price, vat: item.vat })] *)
Definition parsedItem (item : value) : result value :=
  (name <- get item "name" ;;
   id <- get item "id" ;;
   quantity <- get item "quantity" ;;
   unit_price <- get item "unit_price" ;;
   vat <- get item "vat" ;;
   ret (VObj [("name", name); ("id", id); ("quantity", quantity);
              ("unit_price", unit_price); ("vat", vat)]))%js.

(** [JSON.stringify(a) !== JSON.stringify(b)] *)
Definition stringify_differs (a b : value) : bool :=
  negb (bool_decide (JSON_stringify a 0 = JSON_stringify b 0)).

(** [existingOrder && existingOrder.webhook_types
      ? Array.from(new Set([...existingOrder.webhook_types, tag]))
      : [tag]] *)
Definition webhook_types (existingOrder tag : value) : result value :=
  (if truthy existingOrder then
     seen <- get existingOrder "webhook_types" ;;
     if truthy seen then
       elems <- spread seen ;;
       ret (VArr (Array_from_Set (elems ++ [tag])))
     else ret (VArr [tag])
   else ret (VArr [tag]))%js.

(** [!payload.order || !payload.order.id] *)
Definition missing_order (payload : value) : result bool :=
  (order <- get payload "order" ;;
   if falsy order then ret true
   else id <- get order "id" ;; ret (falsy id))%js.

(** The handler.  [TABLE_NAME] is [process.env.DDB_TABLE]; [parsed] is
    the outcome of [JSON.parse(event.body)], a thrown error or the
    payload. *)
Definition handler (TABLE_NAME : option string) (w : world)
  (parsed : result value) (context : value) : M response :=
  set_callbackWaitsForEmptyEventLoop context ;;
  console Log ;;
  match parsed with
  | inl err =>
      console Err ;;
      pure (respond 400 (VObj [("error", VStr "Invalid JSON in request body")]))
  | inr payload =>
      webhook_type <- lift (get payload "webhook_type") ;;
      if falsy webhook_type || negb (includes allowedWebhookTypes webhook_type)
      then
        console Log ;;
        pure (respond 200
                (VObj [("message", VStr "Ignored unsupported webhook_type")]))
      else
        missing <- lift (missing_order payload) ;;
        if missing : bool then
          console Err ;;
          pure (respond 400 (VObj [("error", VStr "Missing order or order.id")]))
        else
          order <- lift (get payload "order") ;;
          id <- lift (get order "id") ;;
          orderId <- lift (toString id) ;;
          orderItems <- lift (get order "items") ;;
          match orderItems with
          | VArr items =>
              parsedItems <- lift (Array_map parsedItem items) ;;
              found <- attempt (dynamo_Get w TABLE_NAME orderId) ;;
              match found with
              | inl err =>
                  console Err ;;
                  pure (respond 500
                          (VObj [("error", VStr "Error reading from database")]))
              | inr existingOrder =>
                  (if truthy existingOrder then
                     existingItems <- lift (get existingOrder "items") ;;
                     if stringify_differs existingItems (VArr parsedItems)
                     then console Warn
                     else console Log
                   else pure tt) ;;
                  let timestamp := Date_toISOString (clock w) in
                  seen <- lift (webhook_types existingOrder webhook_type) ;;
                  let record :=
                    VObj [("order_id", VStr orderId);
                          ("items", VArr parsedItems);
                          ("last_updated", VStr timestamp);
                          ("webhook_types", seen)] in
                  written <- attempt (dynamo_Put w TABLE_NAME record ;;
                                      console Log) ;;
                  match written with
                  | inl err =>
                      console Err ;;
                      pure (respond 500
                              (VObj [("error", VStr "Error writing to database")]))
                  | inr _ =>
                      pure (respond 200
                              (VObj [("message",
                                      VStr "Order processed successfully")]))
                  end
              end
          | _ =>
              console Err ;;
              pure (respond 400
                      (VObj [("error", VStr "order.items is not an array")]))
          end
  end.

(** [payload.order.id.toString()], the key of the record *)
Definition orderId_of (payload : value) : result string :=
  (order <- get payload "order" ;;
   id <- get order "id" ;;
   toString id)%js.

(** [payload.order.items.map(...)], the items of the record *)
Definition parsedItems_of (payload : value) : result (list value) :=
  (order <- get payload "order" ;;
   items <- get order "items" ;;
   match items with
   | VArr items => Array_map parsedItem items
   | _ => throw (TypeError "order.items is not an array")
   end)%js.

(** The record the handler writes. *)
Definition record (orderId : string) (parsedItems : list value)
  (timestamp : string) (seen : list value) : list (string * value) :=
  [("order_id", VStr orderId);
   ("items", VArr parsedItems);
   ("last_updated", VStr timestamp);
   ("webhook_types", VArr seen)].

(** What the record holds of an item that was delivered as an object:
    its five fields, read off the item, a field it does not have being
    [undefined]. *)
Definition stored_item (item : list (string * value)) : value :=
  VObj [("name", default VUndefined (own item "name"));
        ("id", default VUndefined (own item "id"));
        ("quantity", default VUndefined (own item "quantity"));
        ("unit_price", default VUndefined (own item "unit_price"));
        ("vat", default VUndefined (own item "vat"))].

(** One invocation of the handler: what the world answers during it,
    the outcome of parsing its body, and its context. *)
Record delivery : Type := {
  conditions : world;
  parsed : result value;
  context : value
}.

(** Invocations one after the other, on the same table. *)
Fixpoint deliveries (TABLE_NAME : option string) (ds : list delivery)
  (st : state) : list (result response) * state :=
  match ds with
  | [] => ([], st)
  | d :: rest =>
      let (r, st') := handler TABLE_NAME (conditions d) (parsed d) (context d) st in
      let (rs, st'') := deliveries TABLE_NAME rest st' in
      (r :: rs, st'')
  end.

(** A delivery that upserts: its context is an object, its payload has
    the allow-listed [tag], the order id [orderId] and items that map to
    [parsedItems], and DynamoDB answers the read and the write. *)
Record upsert (orderId tag : string) (parsedItems : list value)
  (d : delivery) : Prop := {
  upsert_context : exists props, context d = VObj props;
  upsert_payload :
    exists payload,
      parsed d = ret payload /\
      get payload "webhook_type" = ret (VStr tag) /\
      missing_order payload = ret false /\
      orderId_of payload = ret orderId /\
      parsedItems_of payload = ret parsedItems;
  upsert_allowed : includes allowedWebhookTypes (VStr tag) = true;
  upsert_read : dynamo_get_fault (conditions d) orderId = None;
  upsert_write : forall Item, dynamo_put_fault (conditions d) Item = None
}.

(** What the handler finds under a key. *)
Definition found (st : state) (k : string) : value :=
  match orders st !! k with
  | Some attrs => VObj attrs
  | None => VUndefined
  end.

(** What it logs on comparing the stored items with the new ones. *)
Definition compared (st : state) (k : string) (P : list value)
  : list effect :=
  match orders st !! k with
  | Some attrs =>
      [Console (if stringify_differs (default VUndefined (own attrs "items"))
                     (VArr P)
                then Warn else Log)]
  | None => []
  end.

End Handler.

(** The tags of [webhook_types] as a list of strings: each tag once, in
    the order of first arrival. *)
Definition add_tag (seen : list string) (tag : string) : list string :=
  if bool_decide (tag ∈ seen) then seen else seen ++ [tag].

Definition tags_seen (tags : list string) : list string :=
  fold_left add_tag tags [].

End KonverzkyOrderConsumer.

(** ** src/unnamed/part_000: the Stripe event processor *)

Module StripeProcessor.
Import JS Cloud.

(** The environment variables read at load time, under the names the
    module binds them to. *)
Record environment : Type := {
  TABLE_NAME : option string;        (* DDB_TABLE *)
  RETRY_QUEUE_URL : option string;   (* STRIPE_RETRY_QUEUE_URL *)
  SNS_TOPIC_ARN : option string;     (* MANUAL_ORDER_SNS_TOPIC *)
  bankAccountCode : option string;   (* FIKEN_BANK_ACCOUNT_CODE *)
  paymentAccount : option string;    (* FIKEN_PAYMENT_ACCOUNT *)
  companySlug : option string;       (* FIKEN_COMPANY_SLUG *)
  fikenToken : option string;        (* FIKEN_API_TOKEN *)
  stripeApiKey : option string       (* STRIPE_API_KEY *)
}.

(** What the handler is invoked with: an SQS batch ([event.Records] is an
    array), given by the outcome of [JSON.parse(record.body)] for each
    record, or a direct invocation, given by the outcome of
    [JSON.parse(event.body)].  An [event] that is [null] makes
    [event.Records] throw inside the [try] block: it is the direct
    invocation whose outcome is that [TypeError]. *)
Inductive event : Type :=
| Records (bodies : list (result value))
| Direct (body : result value).

(** [if (!v) throw new Error(name + " environment variable is not set")] *)
Definition required (v : option string) (name : string) : result string :=
  match v with
  | Some s =>
      if String.eqb s "" then
        throw (Error (name +:+ " environment variable is not set"))
      else ret s
  | None => throw (Error (name +:+ " environment variable is not set"))
  end.

(** [s.split(sep).pop()] and [s.split(sep)[0]] *)
Fixpoint split_pop (sep : ascii) (cur s : string) : string :=
  match s with
  | EmptyString => cur
  | String c r =>
      if Ascii.eqb c sep then split_pop sep "" r
      else split_pop sep (cur +:+ String c "") r
  end.

Fixpoint split_first (sep : ascii) (s : string) : string :=
  match s with
  | EmptyString => ""
  | String c r => if Ascii.eqb c sep then "" else String c (split_first sep r)
  end.

(** [a !== b] where [b] is a string literal *)
Definition differs_from (a : value) (b : string) : bool :=
  match a with
  | VStr s => negb (String.eqb s b)
  | _ => true
  end.

(** [v[0]] *)
Definition index0 (v : value) : result value :=
  match v with
  | VUndefined | VNull =>
      throw (TypeError "Cannot read properties of undefined (reading '0')")
  | VArr elems => ret (default VUndefined (head elems))
  | VStr s => ret (if String.eqb s "" then VUndefined else VStr (substring 0 1 s))
  | VObj props => ret (default VUndefined (own props "0"))
  | VBool _ | VNum _ => ret VUndefined
  end.

(** [!charge.metadata || !charge.metadata.order_number] *)
Definition missing_order_number (charge : value) : result bool :=
  (metadata <- get charge "metadata" ;;
   if falsy metadata then ret true
   else order_number <- get metadata "order_number" ;;
        ret (falsy order_number))%js.

(** Every variable the processor requires is set. *)
Definition is_set (v : option string) : bool :=
  match v with
  | Some s => negb (String.eqb s "")
  | None => false
  end.

Definition configured (env : environment) : bool :=
  is_set (bankAccountCode env) && is_set (paymentAccount env) &&
  is_set (companySlug env) && is_set (fikenToken env) &&
  is_set (stripeApiKey env) && is_set (TABLE_NAME env) &&
  is_set (RETRY_QUEUE_URL env) && is_set (SNS_TOPIC_ARN env).

(** A [charge.succeeded] event that passes the checks made before the
    order reference is looked at: its charge is there and carries a
    currency code. *)
Record charge_succeeded (stripeEvent charge : value) : Prop := {
  has_charge :
    exists data,
      get stripeEvent "data" = ret data /\ get data "object" = ret charge;
  has_currency :
    exists code, get charge "currency" = ret (VStr code) /\ code <> "";
  has_type : get stripeEvent "type" = ret (VStr "charge.succeeded")
}.

Section Processor.
Context {rt : Runtime}.
Variable env : environment.
Variable w : world.

Local Open Scope io_scope.

(** [await fetch(url, { method, headers: { Authorization, ... }, body })] *)
Definition fetch_ (url method authorization : string) (body : value)
  : M Response :=
  emit (Fetch url method authorization body) ;;
  lift (fetch w url method body).

(** [`${v}`] *)
Definition template (v : value) : M string := lift (ToString v).

Definition sendRetryMessage (messageBody : value) : M unit :=
  sent <- attempt
    (let MessageBody := stringify messageBody in
     emit (SqsSendMessage (RETRY_QUEUE_URL env) MessageBody 5) ;;
     response <- lift (sqs_send w MessageBody) ;;
     console Log) ;;
  match sent with
  | inl error => console Err ;; raise error
  | inr _ => pure tt
  end.

(** The notification: [`Manual order handling required for charge
    ${charge.id}`] and [JSON.stringify({ message, charge, timestamp },
    null, 2)]. *)
Definition Subject (id : string) : string :=
  "Manual order handling required for charge " +:+ id.

Definition Message (charge : value) : value :=
  stringify2
    (VObj [("message",
            VStr "A charge requires manual order handling due to missing metadata");
           ("charge", charge);
           ("timestamp", VStr (Date_toISOString (clock w)))]).

Definition sendManualOrderNotification (charge : value) : M value :=
  sent <- attempt
    (id <- lift (get charge "id") ;;
     id <- template id ;;
     emit (SnsPublish (SNS_TOPIC_ARN env) (Subject id) (Message charge)) ;;
     response <- lift (sns_publish w (Subject id) (Message charge)) ;;
     console Log ;;
     pure (VObj response)) ;;
  match sent with
  | inl error => console Err ;; raise error
  | inr response => pure response
  end.

(** [{ order_number: konverzkyOrderId, stripeEvent, timestamp }] *)
Definition retryPayload (konverzkyOrderId : string) (stripeEvent : value)
  : value :=
  VObj [("order_number", VStr konverzkyOrderId);
        ("stripeEvent", stripeEvent);
        ("timestamp", VStr (Date_toISOString (clock w)))].

(** [`${charge.id}`], the name of the charge in messages *)
Definition charge_id (charge : value) : result string :=
  (id <- get charge "id" ;; ToString id)%js.

(** [charge.metadata.order_number.toString()], the key of the order *)
Definition order_reference (charge : value) : result string :=
  (metadata <- get charge "metadata" ;;
   order_number <- get metadata "order_number" ;;
   toString order_number)%js.

(** [throw new Error(`${what} Charge ${charge.id}.`)] *)
Definition throw_on_charge {A} (what : string) (charge : value) : M A :=
  id <- lift (get charge "id") ;;
  id <- template id ;;
  raise (Error (what +:+ " Charge " +:+ id +:+ ".")).

(** [new Error(`${api} API error (${call}): ${response.status} - ${text}`)] *)
Definition api_error (api call : string) (response : Response) (text : string)
  : exn :=
  Error (api +:+ " API error (" +:+ call +:+ "): " +:+
         Number_toString (resp_status response) +:+ " - " +:+ text).

(** [if (!response.ok) { const errorText = await response.text();
    throw new Error(...); }] *)
Definition check_ok (api call : string) (response : Response) : M unit :=
  if resp_ok response then pure tt
  else
    errorText <- lift (resp_text response) ;;
    raise (api_error api call response errorText).

(** One invoice line, from a stored item. *)
Definition line (currency : value) (isNorwegian : bool) (item : value)
  : result value :=
  (name <- get item "name" ;;
   id <- get item "id" ;;
   id <- ToString id ;;
   unit_price <- get item "unit_price" ;;
   unitPrice <- mul unit_price (VNum 100) ;;
   quantity <- get item "quantity" ;;
   ret (VObj [("currency", currency);
              ("vatType",
               VStr (if isNorwegian then "HIGH" else "EXEMPT_IMPORT_EXPORT"));
              ("incomeAccount", VNum (if isNorwegian then 3010 else 3110));
              ("productName", name);
              ("description", name);
              ("comment", VStr ("#" +:+ id));
              ("unitPrice", unitPrice);
              ("quantity", quantity)]))%js.

(** [orderRecord.items.map(item => ...)] *)
Definition lines (currency : value) (isNorwegian : bool) (orderRecord : value)
  : result value :=
  (items <- get orderRecord "items" ;;
   match items with
   | VArr items =>
       ls <- Array_map (line currency isNorwegian) items ;;
       ret (VArr ls)
   | _ => throw (TypeError "orderRecord.items.map is not a function")
   end)%js.

(** [contacts && contacts.length > 0] *)
Definition has_contacts (contacts : value) : result bool :=
  (if truthy contacts then
     n <- get contacts "length" ;;
     n <- ToNumber n ;;
     ret (PrimFloat.ltb 0 n)
   else ret false)%js.

Definition norwegian : list value :=
  [VStr "NO"; VStr "NORWAY"; VStr "NORGE"; VStr "NOREG"; VStr "NOR"].

Definition thirty_days : Z := 30 * 24 * 60 * 60 * 1000.

(** The receipt texts that follow the greeting. *)
Definition nl : string := String "010" "".

Definition receipt_no : string :=
  "," +:+ nl +:+ nl +:+ "DU HAR ALLEREDE BETALT, IKKE PRØV Å BETAL IGJEN" +:+
  nl +:+ nl +:+ "Vi har mottatt din betaling." +:+
  nl +:+ nl +:+ "Her er din kvittering (PDF)." +:+
  nl +:+ nl +:+ "Takk for din støtte!".

Definition receipt_en : string :=
  "," +:+ nl +:+ nl +:+ "YOU HAVE PAID, PLEASE DO NOT TRY TO PAY AGAIN" +:+
  nl +:+ nl +:+
  "Please find attached your receipt (PDF) for your recent purchase." +:+
  nl +:+ nl +:+ "Thank you for your support!".

(** The part of [processStripeEvent] that runs once the order is found:
    the Stripe customer, the Fiken contact, the invoice and its receipt. *)
Definition invoice (bankAccountCode paymentAccount companySlug fikenToken
                    stripeApiKey : string)
  (charge currency customerId : value) (konverzkyOrderId : string)
  (orderRecord : value) : M response :=
  console Log ;;
  customer <- template customerId ;;
  console Log ;;
  stripeCustomerResponse <-
    fetch_ ("https://api.stripe.com/v1/customers/" +:+ customer) "GET"
           ("Bearer " +:+ stripeApiKey) VUndefined ;;
  check_ok "Stripe" "fetch customer" stripeCustomerResponse ;;
  stripeCustomer <- lift (resp_json stripeCustomerResponse) ;;
  console Log ;;
  email <- lift (get stripeCustomer "email") ;;
  receipt_email <- lift (get charge "receipt_email") ;;
  let customerEmail := or_else email receipt_email in
  name <- lift (get stripeCustomer "name") ;;
  let customerName := or_else name customerEmail in
  address <- lift (get stripeCustomer "address") ;;
  let customerAddress := or_else address (VObj []) in
  country <- lift (get customerAddress "country") ;;
  state <- lift (get customerAddress "state") ;;
  let customerCountry := or_else country state in
  if falsy customerEmail then throw_on_charge "No customer email found for" charge
  else if falsy customerCountry then
    throw_on_charge "No customer country found for" charge
  else
  upper <- lift (toUpperCase customerCountry) ;;
  let isNorwegian := includes norwegian upper in
  let fikenContactsUrl :=
    "https://api.fiken.no/api/v2/companies/" +:+ companySlug +:+
    "/contacts?memberNumberString=" +:+ customer in
  console Log ;;
  getContactsResponse <-
    fetch_ fikenContactsUrl "GET" ("Bearer " +:+ fikenToken) VUndefined ;;
  check_ok "Fiken" "get contacts" getContactsResponse ;;
  contacts <- lift (resp_json getContactsResponse) ;;
  existing <- lift (has_contacts contacts) ;;
  newContactId <-
    (if existing : bool then
       first <- lift (index0 contacts) ;;
       id <- lift (get first "id") ;;
       contactId <- lift (get first "contactId") ;;
       let newContactId := or_else id contactId in
       template newContactId ;;
       console Log ;;
       pure newContactId
     else
       line1 <- lift (get customerAddress "line1") ;;
       line2 <- lift (get customerAddress "line2") ;;
       city <- lift (get customerAddress "city") ;;
       postal_code <- lift (get customerAddress "postal_code") ;;
       let contactPayload :=
         VObj [("customer", VBool true);
               ("name", customerName);
               ("email", customerEmail);
               ("memberNumberString", customerId);
               ("language",
                VStr (if isNorwegian then "Norwegian" else "English"));
               ("address",
                VObj [("streetAddress", line1);
                      ("streetAddressLine2", line2);
                      ("city", city);
                      ("postCode", postal_code);
                      ("country", customerCountry)])] in
       let fikenContactCreateUrl :=
         "https://api.fiken.no/api/v2/companies/" +:+ companySlug +:+
         "/contacts" in
       console Log ;;
       createContactResponse <-
         fetch_ fikenContactCreateUrl "POST" ("Bearer " +:+ fikenToken)
                (stringify contactPayload) ;;
       createContactText <- lift (resp_text createContactResponse) ;;
       (if resp_ok createContactResponse then pure tt
        else raise (api_error "Fiken" "create contact" createContactResponse
                      createContactText)) ;;
       match resp_Location createContactResponse with
       | Some locationHeader =>
           if String.eqb locationHeader "" then
             raise (Error "Fiken API did not return Location header for created contact")
           else
             console Log ;;
             pure (VStr (split_pop "/" "" locationHeader))
       | None =>
           raise (Error "Fiken API did not return Location header for created contact")
       end) ;;
  lines <- lift (lines currency isNorwegian orderRecord) ;;
  let issueDate := split_first "T" (Date_toISOString (clock w)) in
  let dueDate := split_first "T" (Date_toISOString (clock w + thirty_days)) in
  currency' <- lift (toUpperCase currency) ;;
  let invoicePayload :=
    VObj [("issueDate", VStr issueDate);
          ("dueDate", VStr dueDate);
          ("lines", lines);
          ("bankAccountCode", VStr bankAccountCode);
          ("paymentAccount", VStr paymentAccount);
          ("cash", VBool true);
          ("customerId", newContactId);
          ("currency", currency');
          ("invoiceText",
           VStr (if isNorwegian
                 then "Faktura for produkter kjøpt via Pattern Magicians."
                 else "Invoice for products purchased via Pattern Magicians."));
          ("yourReference", VStr konverzkyOrderId)] in
  console Log ;;
  createInvoiceResponse <-
    fetch_ ("https://api.fiken.no/api/v2/companies/" +:+ companySlug +:+
            "/invoices")
           "POST" ("Bearer " +:+ fikenToken) (stringify invoicePayload) ;;
  console Log ;;
  check_ok "Fiken" "create invoice" createInvoiceResponse ;;
  match resp_Location createInvoiceResponse with
  | None =>
      raise (Error "Fiken API did not return Location header for created invoice")
  | Some invoiceLocationHeader =>
      if String.eqb invoiceLocationHeader "" then
        raise (Error "Fiken API did not return Location header for created invoice")
      else
      let newInvoiceId := split_pop "/" "" invoiceLocationHeader in
      console Log ;;
      recipient <- template customerName ;;
      let messageText :=
        if isNorwegian
        then "Hei " +:+ recipient +:+ receipt_no
        else "Dear " +:+ recipient +:+ receipt_en in
      let sendInvoicePayload :=
        VObj [("invoiceId", VStr newInvoiceId);
              ("recipientEmail", customerEmail);
              ("recipientName", customerName);
              ("message", VStr messageText);
              ("method", VArr [VStr "email"]);
              ("subject", VStr "Your receipt from Pattern Magicians");
              ("emailSendOption", VStr "attachment")] in
      console Log ;;
      sendInvoiceResponse <-
        fetch_ ("https://api.fiken.no/api/v2/companies/" +:+ companySlug +:+
                "/invoices/send")
               "POST" ("Bearer " +:+ fikenToken) (stringify sendInvoicePayload) ;;
      console Log ;;
      check_ok "Fiken" "send invoice" sendInvoiceResponse ;;
      console Log ;;
      pure (respond 200
              (VObj [("message",
                      VStr "Contact and invoice created and sent via email successfully")]))
  end.

(** The common function that processes a Stripe event. *)
Definition processStripeEvent (stripeEvent : value) : M response :=
  bankAccountCode <-
    lift (required (bankAccountCode env) "FIKEN_BANK_ACCOUNT_CODE") ;;
  paymentAccount <-
    lift (required (paymentAccount env) "FIKEN_PAYMENT_ACCOUNT") ;;
  companySlug <- lift (required (companySlug env) "FIKEN_COMPANY_SLUG") ;;
  fikenToken <- lift (required (fikenToken env) "FIKEN_API_TOKEN") ;;
  stripeApiKey <- lift (required (stripeApiKey env) "STRIPE_API_KEY") ;;
  lift (required (TABLE_NAME env) "DDB_TABLE") ;;
  lift (required (RETRY_QUEUE_URL env) "STRIPE_RETRY_QUEUE_URL") ;;
  lift (required (SNS_TOPIC_ARN env) "MANUAL_ORDER_SNS_TOPIC") ;;
  console Log ;;
  data <- lift (get stripeEvent "data") ;;
  charge <- lift (get data "object") ;;
  if falsy charge then raise (Error "Charge object missing in Stripe event")
  else
  code <- lift (get charge "currency") ;;
  currency <- (if truthy code then lift (toUpperCase code) else pure VNull) ;;
  if falsy currency then throw_on_charge "Missing amount or currency on" charge
  else
  type <- lift (get stripeEvent "type") ;;
  if differs_from type "charge.succeeded" then
    template type ;;
    console Log ;;
    pure (respond 200 (VObj [("message", type)]))
  else
  missing <- lift (missing_order_number charge) ;;
  if missing : bool then
    id <- lift (get charge "id") ;;
    template id ;;
    console Log ;;
    sendManualOrderNotification charge ;;
    pure (respond 200
            (VObj [("message", VStr "Manual order handling notification sent")]))
  else
  customerId <- lift (get charge "customer") ;;
  if falsy customerId then throw_on_charge "No customer ID found on" charge
  else
  metadata <- lift (get charge "metadata") ;;
  order_number <- lift (get metadata "order_number") ;;
  template order_number ;;
  console Log ;;
  konverzkyOrderId <- lift (toString order_number) ;;
  found <- attempt (dynamo_Get w (TABLE_NAME env) konverzkyOrderId) ;;
  match found with
  | inl err =>
      console Err ;;
      raise (Error "Error reading from database")
  | inr orderRecord =>
      if falsy orderRecord then
        console Err ;;
        sendRetryMessage (retryPayload konverzkyOrderId stripeEvent) ;;
        pure (respond 200
                (VObj [("error",
                        VStr "Order not found, event queued for retry")]))
      else
        invoice bankAccountCode paymentAccount companySlug fikenToken
          stripeApiKey charge currency customerId konverzkyOrderId orderRecord
  end.

(** [{ statusCode, body }] as a value, for [JSON.stringify] *)
Definition response_value (r : response) : value :=
  VObj [("statusCode", VNum (statusCode r)); ("body", body r)].

(** One record of an SQS batch: its body holds
    [{ order_number, stripeEvent, timestamp }]. *)
Definition processRecord (parsed : result value) : M response :=
  payload <- lift parsed ;;
  console Log ;;
  stripeEvent <- lift (get payload "stripeEvent") ;;
  processStripeEvent stripeEvent.

(** [await Promise.all(records.map(f))]: every record is processed; the
    promise rejects if one of them does.  In the program the records of a
    batch are under way together: the calls of one come between the calls
    of the others, in the order in which the services answer, the
    rejection thrown is the first in time, and the handler answers it
    while the other records go on.  Here the records run record by record
    to the end, and the first rejection in the order of the batch is the
    one thrown: the order in which the trace has the calls of different
    records is not the program's.  What is stated below of a batch of
    several records is about which services its calls go to and about the
    kind of its response, which do not depend on the order. *)
Fixpoint Promise_all (f : result value -> M response)
  (records : list (result value)) : M (list (result response)) :=
  match records with
  | [] => pure []
  | r :: rest =>
      x <- attempt (f r) ;;
      xs <- Promise_all f rest ;;
      pure (x :: xs)
  end.

Fixpoint settled (outcomes : list (result response))
  : result (list response) :=
  match outcomes with
  | [] => ret []
  | inl error :: _ => throw error
  | inr r :: rest => (rs <- settled rest ;; ret (r :: rs))%js
  end.

(** Main handler that supports both SQS events and direct invocation. *)
Definition handler (event : event) (context : value) : M response :=
  set_callbackWaitsForEmptyEventLoop context ;;
  outcome <- attempt
    (match event with
     | Records bodies =>
         outcomes <- Promise_all processRecord bodies ;;
         results <- lift (settled outcomes) ;;
         console Log ;;
         pure (respond 200
                 (VObj [("message",
                         VStr "All SQS records processed successfully");
                        ("results", VArr (map response_value results))]))
     | Direct body =>
         stripeEvent <- lift body ;;
         processStripeEvent stripeEvent
     end) ;;
  match outcome with
  | inl error =>
      console Err ;;
      pure (respond 500 (VObj [("error", VStr (message error))]))
  | inr response => pure response
  end.

End Processor.

End StripeProcessor.

(** ** A runtime to run the model on

    An instance of [Runtime] on which the scenarios below are evaluated.
    Strings are UTF-8 texts.  A number is written as [Number::toString]
    writes it, with the fewest digits that read back as the number; a
    string is read as a number as [StringToNumber] reads it, the white
    space it trims being the one-byte one; JSON text has the escapes of
    [JSON.stringify]; a string is iterated by code point.  The case of
    ASCII letters only is changed: the handlers take the upper case of
    currency codes and country names. *)

Module AsciiRuntime.
Import JS.

Local Open Scope Z_scope.

Definition decimal (z : Z) : string :=
  DecimalString.NilZero.string_of_int (Z.to_int z).

Fixpoint zeros (n : nat) : string :=
  match n with O => "" | S m => String "0" (zeros m) end.

(** The binary64 number nearest to [num / den], ties to even, for
    [num >= 0] and [den > 0]: the quotient is taken to 64 bits and more,
    with one more bit that says whether anything was left. *)
Definition nearest (num den : Z) : float :=
  if Z.eqb num 0 then PrimFloat.zero
  else
    let shift := Z.max 0 (64 + Z.log2 den - Z.log2 num) in
    let scaled := num * 2 ^ shift in
    let q := scaled / den in
    let sticky := if Z.eqb (scaled mod den) 0 then 0 else 1 in
    SF2Prim (binary_normalize prec emax (2 * q + sticky) (- shift - 1) false).

(** [n] with [10^(n-1) <= num / den < 10^n]. *)
Fixpoint below (fuel : nat) (j : Z) (num den : Z) : Z :=
  match fuel with
  | O => j
  | S fuel' =>
      if Z.leb den (num * 10 ^ j) then j else below fuel' (j + 1) num den
  end.

Definition magnitude (num den : Z) : Z :=
  if Z.leb den num
  then Z.of_nat (String.length (decimal (num / den)))
  else 1 - below 400 1 num den.

(** [num / den] times [10^(-p)], as a fraction. *)
Definition scaled (num den p : Z) : Z * Z :=
  if Z.leb 0 p then (num, den * 10 ^ p) else (num * 10 ^ (- p), den).

(** The fewest digits [s], [k] of them, with the [n] for which
    [s * 10^(n-k)] reads back as [x = num / den]; of two such [s], the
    nearer to [x]. *)
Fixpoint shortest (fuel : nat) (k : Z) (x : float) (num den n : Z)
  : Z * Z * Z :=
  let '(a, b) := scaled num den (n - k) in
  let lo := a / b in
  let hi := lo + 1 in
  let reads s :=
    let '(c, d) := scaled s 1 (k - n) in PrimFloat.eqb (nearest c d) x in
  let pick s :=
    if Z.eqb s (10 ^ k) then (10 ^ (k - 1), k, n + 1) else (s, k, n) in
  match fuel with
  | O => pick lo
  | S fuel' =>
      match reads lo, reads hi with
      | true, false => pick lo
      | false, true => pick hi
      | true, true =>
          match Z.compare (2 * a) ((lo + hi) * b) with
          | Lt => pick lo
          | Gt => pick hi
          | Eq => pick (if Z.even lo then lo else hi)
          end
      | false, false => shortest fuel' (k + 1) x num den n
      end
  end.

(** Number::toString in radix 10: the shortest digits that read back as
    the number, written plainly from 1e-6 up to 1e21 and with an exponent
    outside. *)
Definition Number_toString (x : float) : string :=
  match Prim2SF x with
  | S754_zero _ => "0"
  | S754_infinity s => if s then "-Infinity" else "Infinity"
  | S754_nan => "NaN"
  | S754_finite s m e =>
      let sign := if s then "-" else "" in
      let '(num, den) :=
        if Z.leb 0 e then (Z.pos m * 2 ^ e, 1) else (Z.pos m, 2 ^ (- e)) in
      let '(digits, k, n) :=
        shortest 17 1 (PrimFloat.abs x) num den (magnitude num den) in
      let text := decimal digits in
      sign +:+
      (if Z.leb k n && Z.leb n 21 then text +:+ zeros (Z.to_nat (n - k))
       else if Z.ltb 0 n && Z.leb n 21 then
         substring 0 (Z.to_nat n) text +:+ "." +:+
         substring (Z.to_nat n) (Z.to_nat (k - n)) text
       else if Z.ltb (-6) n && Z.leb n 0 then
         "0." +:+ zeros (Z.to_nat (- n)) +:+ text
       else
         let exponent :=
           (if Z.ltb 0 (n - 1) then "+" else "-") +:+
           decimal (Z.abs (n - 1)) in
         if Z.eqb k 1 then text +:+ "e" +:+ exponent
         else substring 0 1 text +:+ "." +:+
              substring 1 (Z.to_nat (k - 1)) text +:+ "e" +:+ exponent)
  end.

Definition digit (c : ascii) : option Z :=
  let n := Z.of_nat (nat_of_ascii c) in
  if Z.leb 48 n && Z.leb n 57 then Some (n - 48) else None.

(** The digit of [c] in a radix up to 16. *)
Definition digit_in (radix : Z) (c : ascii) : option Z :=
  let n := Z.of_nat (nat_of_ascii c) in
  let d :=
    if Z.leb 48 n && Z.leb n 57 then n - 48
    else if Z.leb 97 n && Z.leb n 102 then n - 87
    else if Z.leb 65 n && Z.leb n 70 then n - 55
    else 16 in
  if Z.ltb d radix then Some d else None.

(** The digits a string starts with: their value after [acc], how many
    they are, and what follows them. *)
Fixpoint span_digits (acc count : Z) (s : string) : Z * Z * string :=
  match s with
  | EmptyString => (acc, count, s)
  | String c r =>
      match digit c with
      | Some d => span_digits (10 * acc + d) (count + 1) r
      | None => (acc, count, s)
      end
  end.

Fixpoint digits_in (radix acc : Z) (s : string) : option Z :=
  match s with
  | EmptyString => Some acc
  | String c r =>
      match digit_in radix c with
      | Some d => digits_in radix (radix * acc + d) r
      | None => None
      end
  end.

(** White space and line ends, of those that are one byte long. *)
Definition is_space (c : ascii) : bool :=
  let n := nat_of_ascii c in
  (Nat.eqb n 32 || (Nat.leb 9 n && Nat.leb n 13))%nat.

Fixpoint trim_left (s : string) : string :=
  match s with
  | String c r => if is_space c then trim_left r else s
  | EmptyString => s
  end.

Fixpoint trim_right (s : string) : string :=
  match s with
  | EmptyString => s
  | String c r =>
      match trim_right r with
      | EmptyString => if is_space c then EmptyString else String c EmptyString
      | r' => String c r'
      end
  end.

(** [mantissa * 10^exponent], to the nearest; what is beyond the range
    of the numbers either way is not computed. *)
Definition power_of_ten (mantissa exponent : Z) : float :=
  let width := Z.of_nat (String.length (decimal mantissa)) in
  if Z.eqb mantissa 0 then PrimFloat.zero
  else if Z.leb 310 (width - 1 + exponent) then PrimFloat.infinity
  else if Z.leb (width + exponent) (- 330) then PrimFloat.zero
  else if Z.leb 0 exponent then nearest (mantissa * 10 ^ exponent) 1
  else nearest mantissa (10 ^ (- exponent)).

(** An unsigned decimal literal: digits, a point, digits, an exponent. *)
Definition unsigned_decimal (s : string) : option float :=
  if String.eqb s "Infinity" then Some PrimFloat.infinity
  else
    let '(whole, n_whole, after) := span_digits 0 0 s in
    let '(mantissa, n_fraction, after) :=
      match after with
      | String "." r => span_digits whole 0 r
      | _ => (whole, 0, after)
      end in
    if Z.eqb (n_whole + n_fraction) 0 then None
    else
      match after with
      | EmptyString => Some (power_of_ten mantissa (- n_fraction))
      | String c r =>
          if Ascii.eqb c "e" || Ascii.eqb c "E" then
            let '(negative, r) :=
              match r with
              | String "-" r' => (true, r')
              | String "+" r' => (false, r')
              | _ => (false, r)
              end in
            match span_digits 0 0 r with
            | (e, n, EmptyString) =>
                if Z.eqb n 0 then None
                else
                  Some (power_of_ten mantissa
                          ((if negative then - e else e) - n_fraction))
            | _ => None
            end
          else None
      end.

Definition float_of_Z (z : Z) : float := nearest z 1.

(** StringToNumber: white space trimmed, then nothing, a signed decimal
    literal, or an unsigned literal in radix 16, 8 or 2. *)
Definition StringToNumber (s : string) : float :=
  let literal := trim_right (trim_left s) in
  let radix r t :=
    match t, digits_in r 0 t with
    | String _ _, Some z => float_of_Z z
    | _, _ => PrimFloat.nan
    end in
  match literal with
  | EmptyString => PrimFloat.zero
  | String "0" (String "x" t) | String "0" (String "X" t) => radix 16 t
  | String "0" (String "o" t) | String "0" (String "O" t) => radix 8 t
  | String "0" (String "b" t) | String "0" (String "B" t) => radix 2 t
  | String "-" t =>
      match unsigned_decimal t with
      | Some x => PrimFloat.opp x
      | None => PrimFloat.nan
      end
  | String "+" t => default PrimFloat.nan (unsigned_decimal t)
  | _ => default PrimFloat.nan (unsigned_decimal literal)
  end.

Definition upper (c : ascii) : ascii :=
  let n := nat_of_ascii c in
  if Nat.leb 97 n && Nat.leb n 122 then ascii_of_nat (n - 32)%nat else c.

Fixpoint String_toUpperCase (s : string) : string :=
  match s with
  | EmptyString => EmptyString
  | String c r => String (upper c) (String_toUpperCase r)
  end.

(** The bytes 10xxxxxx, which go on a code point. *)
Definition continues (c : ascii) : bool :=
  let n := nat_of_ascii c in
  Nat.leb 128 n && Nat.ltb n 192.

Fixpoint String_iterator (s : string) : list string :=
  match s with
  | EmptyString => []
  | String c r =>
      let rest := String_iterator r in
      match r, rest with
      | String c' _, p :: ps =>
          if continues c' then String c p :: ps else String c "" :: rest
      | _, _ => String c "" :: rest
      end
  end.

(** A string literal of JSON: quotes and backslashes escaped, control
    characters by their short escape or their code. *)
Definition dquote : ascii := "034"%char.
Definition backslash : ascii := "092"%char.

Definition hex_digit (n : nat) : ascii :=
  ascii_of_nat (if Nat.ltb n 10 then 48 + n else 87 + n)%nat.

Definition escaped (c : ascii) : string :=
  let n := nat_of_ascii c in
  let short (letter : ascii) := String backslash (String letter "") in
  if Ascii.eqb c dquote || Ascii.eqb c backslash then short c
  else if Nat.eqb n 8 then short "b"%char
  else if Nat.eqb n 9 then short "t"%char
  else if Nat.eqb n 10 then short "n"%char
  else if Nat.eqb n 12 then short "f"%char
  else if Nat.eqb n 13 then short "r"%char
  else if Nat.ltb n 32 then
    String backslash
      (String "u"
         (String "0"
            (String "0"
               (String (hex_digit (n / 16)%nat)
                  (String (hex_digit (n mod 16)%nat) "")))))
  else String c "".

Fixpoint escape (s : string) : string :=
  match s with
  | EmptyString => ""
  | String c r => escaped c +:+ escape r
  end.

Definition quote (s : string) : string :=
  String dquote (escape s) +:+ String dquote "".

Definition joined (sep : string) (parts : list string) : string :=
  match parts with
  | [] => ""
  | p :: ps => fold_left (fun acc q => acc +:+ sep +:+ q) ps p
  end.

(** [opening parts closing]; one part per line, indented, when [gap] is
    not empty. *)
Definition bracket (gap indent opening closing : string)
  (parts : list string) : string :=
  match parts with
  | [] => opening +:+ closing
  | _ =>
      if String.eqb gap "" then opening +:+ joined "," parts +:+ closing
      else
        let inner := String "010" (indent +:+ gap) in
        opening +:+ inner +:+ joined ("," +:+ inner) parts +:+
        String "010" indent +:+ closing
  end.

Fixpoint serialize (gap indent : string) (v : value) : option string :=
  match v with
  | VUndefined => None
  | VNull => Some "null"
  | VBool b => Some (if b then "true" else "false")
  | VNum n => Some (if PrimFloat.is_finite n then Number_toString n else "null")
  | VStr s => Some (quote s)
  | VArr elems =>
      Some (bracket gap indent "[" "]"
              ((fix each (l : list value) : list string :=
                  match l with
                  | [] => []
                  | x :: rest =>
                      default "null" (serialize gap (indent +:+ gap) x)
                      :: each rest
                  end) elems))
  | VObj props =>
      Some (bracket gap indent "{" "}"
              ((fix each (l : list (string * value)) : list string :=
                  match l with
                  | [] => []
                  | (k, x) :: rest =>
                      match serialize gap (indent +:+ gap) x with
                      | Some t =>
                          (quote k +:+
                           (if String.eqb gap "" then ":" else ": ") +:+ t)
                          :: each rest
                      | None => each rest
                      end
                  end) props))
  end.

Fixpoint spaces (n : nat) : string :=
  match n with O => "" | S m => String " " (spaces m) end.

Definition JSON_stringify (v : value) (space : nat) : option string :=
  serialize (spaces space) "" v.

(** The civil date of a day number (days since 1970-01-01). *)
Definition civil (days : Z) : Z * Z * Z :=
  let z := days + 719468 in
  let era := z / 146097 in
  let doe := z - era * 146097 in
  let yoe := (doe - doe / 1460 + doe / 36524 - doe / 146096) / 365 in
  let doy := doe - (365 * yoe + yoe / 4 - yoe / 100) in
  let mp := (5 * doy + 2) / 153 in
  let d := doy - (153 * mp + 2) / 5 + 1 in
  let m := if Z.ltb mp 10 then mp + 3 else mp - 9 in
  let y := yoe + era * 400 + (if Z.leb m 2 then 1 else 0) in
  (y, m, d).

Definition padded (width : nat) (z : Z) : string :=
  let d := decimal z in
  zeros (width - String.length d)%nat +:+ d.

Definition Date_toISOString (ms : Z) : string :=
  let '(y, m, d) := civil (ms / 86400000) in
  let t := ms mod 86400000 in
  (if Z.leb 0 y && Z.leb y 9999 then padded 4 y
   else (if Z.ltb y 0 then "-" else "+") +:+ padded 6 (Z.abs y)) +:+
  "-" +:+ padded 2 m +:+ "-" +:+ padded 2 d +:+ "T" +:+
  padded 2 (t / 3600000) +:+ ":" +:+ padded 2 (t / 60000 mod 60) +:+ ":" +:+
  padded 2 (t / 1000 mod 60) +:+ "." +:+ padded 3 (t mod 1000) +:+ "Z".

#[export] Instance runtime : Runtime := {|
  JS.Number_toString := Number_toString;
  JS.StringToNumber := StringToNumber;
  JS.String_toUpperCase := String_toUpperCase;
  JS.String_toUpperCase_nonempty :=
    ltac:(intros s; destruct s; [reflexivity | discriminate]);
  JS.String_iterator := String_iterator;
  JS.JSON_stringify := JSON_stringify;
  JS.Date_toISOString := Date_toISOString
|}.

End AsciiRuntime.

(** ** The scenarios of the specification *)

Module Scenarios.
Import JS Cloud.

Definition env : StripeProcessor.environment := {|
  StripeProcessor.TABLE_NAME := Some "KonverzkyOrders";
  StripeProcessor.RETRY_QUEUE_URL := Some "https://sqs.example/StripeRetryQueue";
  StripeProcessor.SNS_TOPIC_ARN := Some "arn:aws:sns:manual-orders";
  StripeProcessor.bankAccountCode := Some "1920:10001";
  StripeProcessor.paymentAccount := Some "1920:10001";
  StripeProcessor.companySlug := Some "pattern-magicians";
  StripeProcessor.fikenToken := Some "fiken-token";
  StripeProcessor.stripeApiKey := Some "sk_test"
|}.

Definition answer (status : float) (json : value) (location : option string)
  : Response := {|
  resp_ok := true;
  resp_status := status;
  resp_text := ret "";
  resp_json := ret json;
  resp_Location := location
|}.

(** A foreign customer, no Fiken contact yet, every call accepted. *)
Definition fetches (url method : string) (body : value) : result Response :=
  if String.eqb url "https://api.stripe.com/v1/customers/cus_1" then
    ret (answer 200
           (VObj [("email", VStr "ada@example.com");
                  ("name", VStr "Ada");
                  ("address", VObj [("country", VStr "US")])])
           None)
  else if String.eqb method "GET" then ret (answer 200 (VArr []) None)
  else if String.eqb url
            "https://api.fiken.no/api/v2/companies/pattern-magicians/contacts"
  then ret (answer 201 VNull (Some "https://api.fiken.no/contacts/77"))
  else ret (answer 201 VNull (Some "https://api.fiken.no/invoices/4711")).

Definition calm : world := {|
  clock := 1762154400123;
  dynamo_get_fault := fun _ => None;
  dynamo_put_fault := fun _ => None;
  sqs_send := fun _ => ret [("MessageId", VStr "m-1")];
  sns_publish := fun _ _ => ret [("MessageId", VStr "n-1")];
  fetch := fetches
|}.

Definition lambda_context : value := VObj [("awsRequestId", VStr "req-1")].

Definition empty : state := {| orders := ∅; trace := [] |}.

(** Scenario A: the order, and its payment by a foreign customer. *)
Definition widget (unit_price : float) : value :=
  VObj [("name", VStr "Widget"); ("id", VStr "w1"); ("quantity", VNum 2);
        ("unit_price", VNum unit_price); ("vat", VNum 0)].

Definition order_created (id : string) (tag : string) (items : list value)
  : value :=
  VObj [("webhook_type", VStr tag);
        ("order", VObj [("id", VStr id); ("items", VArr items)])].

Definition charge (type : string) (props : list (string * value)) : value :=
  VObj [("type", VStr type);
        ("data", VObj [("object", VObj (("id", VStr "ch_1") :: props))])].

Definition payment_confirmed (order_number : string) : value :=
  charge "charge.succeeded"
    [("currency", VStr "usd"); ("customer", VStr "cus_1");
     ("metadata", VObj [("order_number", VStr order_number)])].

(** Scenario C: no [metadata.order_number]. *)
Definition payment_without_order : value :=
  charge "charge.succeeded"
    [("currency", VStr "usd"); ("customer", VStr "cus_1");
     ("metadata", VObj [])].

(** Scenario D: an event type that is not acted on. *)
Definition payment_failed : value :=
  charge "charge.failed" [("currency", VStr "usd"); ("customer", VStr "cus_1")].

(** Events of other types whose object carries no currency. *)
Definition payment_failed_without_currency : value :=
  charge "charge.failed" [("customer", VStr "cus_1")].

Definition customer_created : value :=
  charge "customer.created" [("email", VStr "ada@example.com")].

(** No [metadata.order_number] and no customer either. *)
Definition payment_without_order_and_customer : value :=
  charge "charge.succeeded" [("currency", VStr "usd")].

(** An order reference, but no customer. *)
Definition payment_without_customer : value :=
  charge "charge.succeeded"
    [("currency", VStr "usd");
     ("metadata", VObj [("order_number", VStr "123")])].

(** The charges of these events. *)
Definition charge_of (props : list (string * value)) : value :=
  VObj (("id", VStr "ch_1") :: props).

(** Deliveries of Scenario A's order, and of the same order with another
    price. *)
Definition delivered (tag : string) (unit_price : float)
  : KonverzkyOrderConsumer.delivery := {|
  KonverzkyOrderConsumer.conditions := calm;
  KonverzkyOrderConsumer.parsed :=
    ret (order_created "123" tag [widget unit_price]);
  KonverzkyOrderConsumer.context := lambda_context
|}.

(** The table once Scenario A's order is stored. *)
Definition stored (unit_price : float) : state := {|
  orders :=
    {[ "123" :=
         KonverzkyOrderConsumer.record "123" [widget unit_price]
           "2025-11-03T07:20:00.123Z" [VStr "order_paid"] ]};
  trace := []
|}.

(** The invoice request of Scenario A, for a stored unit price. *)
Definition invoice_request (unitPrice : float) : effect :=
  Fetch "https://api.fiken.no/api/v2/companies/pattern-magicians/invoices"
    "POST" "Bearer fiken-token"
    (stringify (rt := AsciiRuntime.runtime)
       (VObj [("issueDate", VStr "2025-11-03");
              ("dueDate", VStr "2025-12-03");
              ("lines",
               VArr [VObj [("currency", VStr "USD");
                           ("vatType", VStr "EXEMPT_IMPORT_EXPORT");
                           ("incomeAccount", VNum 3110);
                           ("productName", VStr "Widget");
                           ("description", VStr "Widget");
                           ("comment", VStr "#w1");
                           ("unitPrice", VNum unitPrice);
                           ("quantity", VNum 2)]]);
              ("bankAccountCode", VStr "1920:10001");
              ("paymentAccount", VStr "1920:10001");
              ("cash", VBool true);
              ("customerId", VStr "77");
              ("currency", VStr "USD");
              ("invoiceText",
               VStr "Invoice for products purchased via Pattern Magicians.");
              ("yourReference", VStr "123")])).

(** An order payload without its order. *)
Definition order_without_id : value :=
  VObj [("webhook_type", VStr "order_paid"); ("order", VObj [])].

End Scenarios.

(** ** Reading traces *)

Module Traces.
Import JS Cloud.

(** The service an entry of the trace is a call to. *)
Inductive service : Type :=
| TheConsole | TableRead | TableWrite | Queue | Channel | Ledger.

#[export] Instance service_eq_dec : EqDecision service.
Proof. solve_decision. Defined.

Definition service_of (e : effect) : service :=
  match e with
  | Console _ => TheConsole
  | DynamoGet _ _ => TableRead
  | DynamoPut _ _ => TableWrite
  | SqsSendMessage _ _ _ => Queue
  | SnsPublish _ _ _ => Channel
  | Fetch _ _ _ _ => Ledger
  end.

Definition is_console (e : effect) : bool :=
  match e with Console _ => true | _ => false end.

(** The calls of a trace: what is left when the console is taken out. *)
Definition calls (t : list effect) : list effect :=
  List.filter (fun e => negb (is_console e)) t.

(** Every entry of [t] is a call to one of the services [S]. *)
Definition within (S : list service) (t : list effect) : Prop :=
  Forall (fun e => service_of e ∈ S) t.

(** A computation that leaves the table as it is and calls only the
    services [S]. *)
Definition confined {A} (S : list service) (m : M A) : Prop :=
  forall st,
    orders (snd (m st)) = orders st /\
    exists new, trace (snd (m st)) = trace st ++ new /\ within S new.

(** What the Stripe processor is wired to. *)
Definition reachable : list service :=
  [TheConsole; TableRead; Queue; Channel; Ledger].

End Traces.

(** ** The requests of the invoice path, by name *)

Module Requests.
Import JS Cloud StripeProcessor.

Section Requests.
Context {rt : Runtime}.

(** The four endpoints, as the templates of the source spell them. *)
Definition customer_url (customer : string) : string :=
  "https://api.stripe.com/v1/customers/" +:+ customer.

Definition contacts_url (companySlug customer : string) : string :=
  "https://api.fiken.no/api/v2/companies/" +:+ companySlug +:+
  "/contacts?memberNumberString=" +:+ customer.

Definition create_contact_url (companySlug : string) : string :=
  "https://api.fiken.no/api/v2/companies/" +:+ companySlug +:+ "/contacts".

Definition invoices_url (companySlug : string) : string :=
  "https://api.fiken.no/api/v2/companies/" +:+ companySlug +:+ "/invoices".

Definition send_url (companySlug : string) : string :=
  "https://api.fiken.no/api/v2/companies/" +:+ companySlug +:+
  "/invoices/send".

Definition bearer (token : string) : string := "Bearer " +:+ token.

(** [isNorwegian], for a country that is a string. *)
Definition isNorwegian (country : string) : bool :=
  includes norwegian (VStr (String_toUpperCase country)).

(** The object literals [contactPayload], [invoicePayload] and
    [sendInvoicePayload], for a customer whose email, name and country are
    strings; the text line of the invoice is a parameter. *)
Definition contactPayload (name email : string) (customerId : value)
  (address : list (string * value)) (country : string) : value :=
  VObj [("customer", VBool true);
        ("name", VStr name);
        ("email", VStr email);
        ("memberNumberString", customerId);
        ("language",
         VStr (if isNorwegian country then "Norwegian" else "English"));
        ("address",
         VObj [("streetAddress", default VUndefined (own address "line1"));
               ("streetAddressLine2",
                default VUndefined (own address "line2"));
               ("city", default VUndefined (own address "city"));
               ("postCode", default VUndefined (own address "postal_code"));
               ("country", VStr country)])].

Definition invoicePayload (w : world) (lines : value)
  (bankAccountCode paymentAccount : string) (newContactId : value)
  (currency invoiceText konverzkyOrderId : string) : value :=
  VObj [("issueDate", VStr (split_first "T" (Date_toISOString (clock w))));
        ("dueDate",
         VStr (split_first "T"
                 (Date_toISOString (clock w + thirty_days))));
        ("lines", lines);
        ("bankAccountCode", VStr bankAccountCode);
        ("paymentAccount", VStr paymentAccount);
        ("cash", VBool true);
        ("customerId", newContactId);
        ("currency", VStr (String_toUpperCase currency));
        ("invoiceText", VStr invoiceText);
        ("yourReference", VStr konverzkyOrderId)].

Definition sendInvoicePayload (newInvoiceId email name country : string)
  : value :=
  VObj [("invoiceId", VStr newInvoiceId);
        ("recipientEmail", VStr email);
        ("recipientName", VStr name);
        ("message",
         VStr (if isNorwegian country
               then "Hei " +:+ name +:+ receipt_no
               else "Dear " +:+ name +:+ receipt_en));
        ("method", VArr [VStr "email"]);
        ("subject", VStr "Your receipt from Pattern Magicians");
        ("emailSendOption", VStr "attachment")].

(** The variables the processor requires, by the names of its messages,
    in the order in which it checks them. *)
Definition variables (env : environment) : list (string * option string) :=
  [("FIKEN_BANK_ACCOUNT_CODE", bankAccountCode env);
   ("FIKEN_PAYMENT_ACCOUNT", paymentAccount env);
   ("FIKEN_COMPANY_SLUG", companySlug env);
   ("FIKEN_API_TOKEN", fikenToken env);
   ("STRIPE_API_KEY", stripeApiKey env);
   ("DDB_TABLE", TABLE_NAME env);
   ("STRIPE_RETRY_QUEUE_URL", RETRY_QUEUE_URL env);
   ("MANUAL_ORDER_SNS_TOPIC", SNS_TOPIC_ARN env)].

(** The name of the first variable of a list that is unset or empty. *)
Fixpoint first_unset (vars : list (string * option string))
  : option string :=
  match vars with
  | [] => None
  | (name, v) :: rest => if is_set v then first_unset rest else Some name
  end.

(** A [charge.succeeded] event with its order reference and customer,
    whose order is in the table. *)
Record matched (env : environment) (w : world)
  (stripeEvent charge customerId : value) (code customer k : string)
  (attrs : list (string * value)) (st : state) : Prop := {
  matched_configured : configured env = true;
  matched_data :
    exists data,
      get stripeEvent "data" = ret data /\ get data "object" = ret charge;
  matched_currency : get charge "currency" = ret (VStr code) /\ code <> "";
  matched_type : get stripeEvent "type" = ret (VStr "charge.succeeded");
  matched_reference : missing_order_number charge = ret false;
  matched_key : order_reference charge = ret k;
  matched_customer : get charge "customer" = ret customerId;
  matched_customer_there : truthy customerId = true;
  matched_customer_name : ToString customerId = ret customer;
  matched_read : dynamo_get_fault w k = None;
  matched_stored : orders st !! k = Some attrs
}.

(** Stripe answers the lookup of the customer with a profile whose email,
    name and country are strings. *)
Record profile (w : world) (customer email name country : string)
  (address : list (string * value)) : Prop := {
  profile_answer :
    exists response stripeCustomer,
      fetch w (customer_url customer) "GET" VUndefined = ret response /\
      resp_ok response = true /\
      resp_json response = ret stripeCustomer /\
      get stripeCustomer "email" = ret (VStr email) /\
      get stripeCustomer "name" = ret (VStr name) /\
      get stripeCustomer "address" = ret (VObj address);
  profile_email : email <> "";
  profile_name : name <> "";
  profile_country :
    own address "country" = Some (VStr country) /\ country <> ""
}.

End Requests.

End Requests.

(** ** More scenarios: refusals and outages *)

Module Cases.
Import JS Cloud Scenarios.

Definition outage : exn := Error "ServiceUnavailable".

(** The worlds of Scenario A in which the table cannot be read, or cannot
    be written. *)
Definition unreadable : world := {|
  clock := clock calm;
  dynamo_get_fault := fun _ => Some outage;
  dynamo_put_fault := dynamo_put_fault calm;
  sqs_send := sqs_send calm;
  sns_publish := sns_publish calm;
  fetch := fetch calm
|}.

Definition unwritable : world := {|
  clock := clock calm;
  dynamo_get_fault := dynamo_get_fault calm;
  dynamo_put_fault := fun _ => Some outage;
  sqs_send := sqs_send calm;
  sns_publish := sns_publish calm;
  fetch := fetch calm
|}.

(** An answer with a failure status. *)
Definition refusal (status : float) (text : string) : Response := {|
  resp_ok := false;
  resp_status := status;
  resp_text := ret text;
  resp_json := throw (SyntaxError "Unexpected token");
  resp_Location := None
|}.

(** Scenario A's world, but for the answer to one request. *)
Definition but (url method : string) (response : Response) : world := {|
  clock := clock calm;
  dynamo_get_fault := dynamo_get_fault calm;
  dynamo_put_fault := dynamo_put_fault calm;
  sqs_send := sqs_send calm;
  sns_publish := sns_publish calm;
  fetch := fun u m body =>
    if String.eqb u url && String.eqb m method then ret response
    else fetches u m body
|}.

Definition stripe_customer : string :=
  "https://api.stripe.com/v1/customers/cus_1".

Definition fiken_contacts : string :=
  "https://api.fiken.no/api/v2/companies/pattern-magicians/contacts?memberNumberString=cus_1".

Definition fiken_invoices : string :=
  "https://api.fiken.no/api/v2/companies/pattern-magicians/invoices".

(** Stripe is down; Stripe knows the customer without an email; Fiken
    knows the customer as contact 42. *)
Definition stripe_down : world :=
  but stripe_customer "GET" (refusal 503 "upstream unavailable").

Definition anonymous : world :=
  but stripe_customer "GET"
    (answer 200
       (VObj [("name", VStr "Ada");
              ("address", VObj [("country", VStr "US")])])
       None).

Definition contact_42 : value := VObj [("contactId", VNum 42)].

Definition known : world :=
  but fiken_contacts "GET" (answer 200 (VArr [contact_42]) None).

(** Fiken knows the customer and refuses the invoice. *)
Definition refusing : world := {|
  clock := clock calm;
  dynamo_get_fault := dynamo_get_fault calm;
  dynamo_put_fault := dynamo_put_fault calm;
  sqs_send := sqs_send calm;
  sns_publish := sns_publish calm;
  fetch := fun u m body =>
    if String.eqb u fiken_invoices then
      ret (refusal 400 "Invalid bank account")
    else fetch known u m body
|}.

(** Scenario A's environment without the token of the ledger. *)
Definition env_without_token : StripeProcessor.environment := {|
  StripeProcessor.TABLE_NAME := StripeProcessor.TABLE_NAME env;
  StripeProcessor.RETRY_QUEUE_URL := StripeProcessor.RETRY_QUEUE_URL env;
  StripeProcessor.SNS_TOPIC_ARN := StripeProcessor.SNS_TOPIC_ARN env;
  StripeProcessor.bankAccountCode := StripeProcessor.bankAccountCode env;
  StripeProcessor.paymentAccount := StripeProcessor.paymentAccount env;
  StripeProcessor.companySlug := StripeProcessor.companySlug env;
  StripeProcessor.fikenToken := None;
  StripeProcessor.stripeApiKey := StripeProcessor.stripeApiKey env
|}.

(** A webhook of a type that is not acted on, and an event without its
    charge. *)
Definition order_cancelled : value :=
  VObj [("webhook_type", VStr "order_cancelled");
        ("order", VObj [("id", VStr "123"); ("items", VArr [])])].

Definition event_without_charge : value :=
  VObj [("type", VStr "charge.succeeded"); ("data", VObj [])].

(** The charge of Scenario A's payment, and the line of its widget. *)
Definition paid (order_number : string) : value :=
  charge_of [("currency", VStr "usd"); ("customer", VStr "cus_1");
             ("metadata", VObj [("order_number", VStr order_number)])].

Definition widget_line (unitPrice : float) : value :=
  VObj [("currency", VStr "USD");
        ("vatType", VStr "EXEMPT_IMPORT_EXPORT");
        ("incomeAccount", VNum 3110);
        ("productName", VStr "Widget");
        ("description", VStr "Widget");
        ("comment", VStr "#w1");
        ("unitPrice", VNum unitPrice);
        ("quantity", VNum 2)].

(** The widget as the shop delivers it, with more than is kept. *)
Definition widget_delivered (unit_price : float) : value :=
  VObj [("sku", VStr "W-1"); ("name", VStr "Widget"); ("id", VStr "w1");
        ("quantity", VNum 2); ("unit_price", VNum unit_price);
        ("vat", VNum 0); ("weight", VNum 3)].

End Cases.

(** * Properties of the Konverzky order consumer *)

Module OrderFacts.
Import JS Cloud KonverzkyOrderConsumer.

(** ** The tags of [webhook_types] *)

Lemma includes_tags (seen : list string) (tag : string) :
  includes (map VStr seen) (VStr tag) = bool_decide (tag ∈ seen).
Proof.
  induction seen as [|t seen IH]; [reflexivity|].
  unfold includes in *. cbn [map existsb SameValueZero]. rewrite IH.
  destruct (String.eqb_spec tag t) as [->|Hne]; cbn [orb].
  - symmetry. apply bool_decide_eq_true. left.
  - destruct (decide (tag ∈ seen)) as [Hin|Hout].
    + rewrite !bool_decide_eq_true_2; [reflexivity| |assumption].
      right. assumption.
    + rewrite !bool_decide_eq_false_2; [reflexivity| |assumption].
      intros [E|Hin]%elem_of_cons; [exact (Hne E)|exact (Hout Hin)].
Qed.

Lemma Set_add_tag (seen : list string) (tag : string) :
  Set_add (map VStr seen) (VStr tag) = map VStr (add_tag seen tag).
Proof.
  unfold Set_add, add_tag. rewrite includes_tags.
  destruct (bool_decide (tag ∈ seen)); [reflexivity|].
  rewrite map_app. reflexivity.
Qed.

Lemma fold_Set_add_tags (tags seen : list string) :
  fold_left Set_add (map VStr tags) (map VStr seen) =
  map VStr (fold_left add_tag tags seen).
Proof.
  revert seen. induction tags as [|t tags IH]; intros seen; [reflexivity|].
  cbn [map fold_left]. rewrite Set_add_tag. apply IH.
Qed.

Lemma Array_from_Set_tags (tags : list string) :
  Array_from_Set (map VStr tags) = map VStr (tags_seen tags).
Proof. exact (fold_Set_add_tags tags []). Qed.

Lemma elem_of_add_tag (seen : list string) (tag t : string) :
  t ∈ add_tag seen tag <-> t ∈ seen \/ t = tag.
Proof.
  unfold add_tag. case_bool_decide as Hin.
  - split; [auto|]. intros [H| ->]; assumption.
  - rewrite elem_of_app, list_elem_of_singleton. reflexivity.
Qed.

Lemma elem_of_fold_add_tag (tags seen : list string) (t : string) :
  t ∈ fold_left add_tag tags seen <-> t ∈ seen \/ t ∈ tags.
Proof.
  revert seen. induction tags as [|x tags IH]; intros seen; cbn [fold_left].
  - split; [auto|]. intros [H|H]; [assumption|]. inversion H.
  - rewrite IH, elem_of_add_tag, elem_of_cons. tauto.
Qed.

Lemma NoDup_add_tag (seen : list string) (tag : string) :
  NoDup seen -> NoDup (add_tag seen tag).
Proof.
  intros H. unfold add_tag. case_bool_decide as Hin; [assumption|].
  apply NoDup_app. repeat split; [assumption| |apply NoDup_singleton].
  intros x Hx ->%list_elem_of_singleton. exact (Hin Hx).
Qed.

Lemma NoDup_fold_add_tag (tags seen : list string) :
  NoDup seen -> NoDup (fold_left add_tag tags seen).
Proof.
  revert seen. induction tags as [|x tags IH]; intros seen H; [assumption|].
  apply IH, NoDup_add_tag, H.
Qed.

(** Each tag once, and no tag lost. *)
Lemma tags_seen_set (tags : list string) :
  NoDup (tags_seen tags) /\ forall t, t ∈ tags_seen tags <-> t ∈ tags.
Proof.
  split.
  - apply NoDup_fold_add_tag, NoDup_nil_2.
  - intros t. unfold tags_seen. rewrite elem_of_fold_add_tag.
    split; [intros [H|H]; [inversion H|assumption]|auto].
Qed.

Lemma fold_add_tag_NoDup (tags seen : list string) :
  NoDup (seen ++ tags) -> fold_left add_tag tags seen = seen ++ tags.
Proof.
  revert seen. induction tags as [|x tags IH]; intros seen H; cbn [fold_left].
  - rewrite app_nil_r. reflexivity.
  - assert (Hx : x ∉ seen).
    { apply NoDup_app in H as (_ & H & _). intros Hin.
      apply (H x Hin). left. }
    unfold add_tag at 2. rewrite bool_decide_eq_false_2 by assumption.
    rewrite IH; rewrite <- app_assoc; [reflexivity|assumption].
Qed.

Lemma tags_seen_NoDup (tags : list string) :
  NoDup tags -> tags_seen tags = tags.
Proof. intros H. exact (fold_add_tag_NoDup tags [] H). Qed.

Lemma tags_seen_snoc (tags : list string) (tag : string) :
  tags_seen (tags ++ [tag]) = add_tag (tags_seen tags) tag.
Proof. unfold tags_seen. rewrite fold_left_app. reflexivity. Qed.

(** ** One invocation *)

Section Facts.
Context {rt : Runtime}.

#[local] Arguments get : simpl never.
#[local] Arguments toString : simpl never.
#[local] Arguments stringify : simpl never.
#[local] Arguments respond : simpl never.
#[local] Arguments missing_order : simpl never.
#[local] Arguments webhook_types : simpl never.
#[local] Arguments Array_map : simpl never.
#[local] Arguments includes : simpl never.

Lemma get_VObj (props : list (string * value)) (k : string) :
  get (VObj props) k = ret (default VUndefined (own props k)).
Proof. reflexivity. Qed.

Ltac run :=
  cbv beta iota zeta
      delta [bind lift pure raise attempt emit console rbind ret throw
             set_callbackWaitsForEmptyEventLoop];
  cbn.

Ltac step :=
  repeat first
    [ progress run
    | match goal with
      | H : get ?v ?k = _ |- context [get ?v ?k] => rewrite H
      | H : toString ?v = _ |- context [toString ?v] => rewrite H
      | H : missing_order ?v = _ |- context [missing_order ?v] => rewrite H
      | H : Array_map ?f ?v = _ |- context [Array_map ?f ?v] => rewrite H
      | H : webhook_types ?v ?t = _ |- context [webhook_types ?v ?t] =>
          rewrite H
      | H : includes ?l ?v = _ |- context [includes ?l ?v] => rewrite H
      | H : falsy ?v = _ |- context [falsy ?v] => rewrite H
      | |- context [get (VObj ?props) ?k] => rewrite (get_VObj props k)
      end ].

(** An allow-listed tag is not the empty string. *)
Lemma allowed_truthy (tag : string) :
  includes allowedWebhookTypes (VStr tag) = true -> falsy (VStr tag) = false.
Proof.
  destruct tag; [discriminate|reflexivity].
Qed.

Lemma orderId_of_inv (payload : value) (k : string) :
  orderId_of payload = ret k ->
  exists order id,
    get payload "order" = ret order /\ get order "id" = ret id /\
    toString id = ret k.
Proof.
  unfold orderId_of. intros H.
  destruct (get payload "order") as [e|order]; [discriminate|].
  cbn in H. destruct (get order "id") as [e|id] eqn:Eid; [discriminate|].
  cbn in H. eauto.
Qed.

Lemma parsedItems_of_inv (payload order : value) (P : list value) :
  get payload "order" = ret order ->
  parsedItems_of payload = ret P ->
  exists items,
    get order "items" = ret (VArr items) /\ Array_map parsedItem items = ret P.
Proof.
  unfold parsedItems_of. intros -> H. cbn in H.
  destruct (get order "items") as [e|items]; [discriminate|].
  cbn in H. destruct items; try discriminate. eauto.
Qed.

(** A delivery that upserts writes the record and answers with a
    success. *)
Lemma upsert_run (TABLE_NAME : option string) (d : delivery)
  (k tag : string) (P seen : list value) (st : state) :
  upsert k tag P d ->
  webhook_types (found st k) (VStr tag) = ret (VArr seen) ->
  handler TABLE_NAME (conditions d) (parsed d) (context d) st =
    (ret (respond 200
            (VObj [("message", VStr "Order processed successfully")])),
     {| orders :=
          <[k := record k P (Date_toISOString (clock (conditions d))) seen]>
            (orders st);
        trace :=
          trace st ++ [Console Log; DynamoGet TABLE_NAME k] ++
          compared st k P ++
          [DynamoPut TABLE_NAME
             (VObj (record k P (Date_toISOString (clock (conditions d)))
                      seen));
           Console Log] |}).
Proof.
  intros [[props Hctx] (payload & Hp & Htag & Hm & Hk & HP) Hal Hrd Hwr] Hseen.
  destruct (orderId_of_inv _ _ Hk) as (order & id & Ho & Hid & Hts).
  destruct (parsedItems_of_inv _ _ _ Ho HP) as (items & Hitems & Hmap).
  pose proof (allowed_truthy _ Hal) as Htruthy.
  unfold handler. rewrite Hp, Hctx. step.
  unfold dynamo_Get. step. rewrite Hrd. step.
  unfold found, compared in *.
  destruct (orders st !! k) as [attrs|] eqn:Ek; step.
  - destruct (stringify_differs _ _); step;
      unfold dynamo_Put; step; rewrite Hwr; step;
      rewrite <- !app_assoc; reflexivity.
  - unfold dynamo_Put. step. rewrite Hwr. step.
    rewrite <- !app_assoc. reflexivity.
Qed.

(** C8.  A payload with an allow-listed [webhook_type] that lacks
    [order] or [order.id], or whose [order.items] is not an array, is
    answered with a client error; the table is neither read nor written
    and keeps its records. *)
Theorem malformed_order_is_rejected (TABLE_NAME : option string) (w : world)
  (payload : value) (tag : string) (context : list (string * value))
  (st : state) :
  get payload "webhook_type" = ret (VStr tag) ->
  includes allowedWebhookTypes (VStr tag) = true ->
  missing_order payload = ret true \/
  (missing_order payload = ret false /\
   exists k order items,
     orderId_of payload = ret k /\
     get payload "order" = ret order /\
     get order "items" = ret items /\
     isArray items = false) ->
  exists reason,
    handler TABLE_NAME w (ret payload) (VObj context) st =
      (ret (respond 400 (VObj [("error", VStr reason)])),
       {| orders := orders st;
          trace := trace st ++ [Console Log; Console Err] |}).
Proof.
  intros Htag Hal Hbad.
  pose proof (allowed_truthy _ Hal) as Htruthy.
  unfold handler.
  destruct Hbad as [Hm|(Hm & k & order & items & Hk & Ho & Hitems & Harr)].
  - step. rewrite <- !app_assoc. eauto.
  - destruct (orderId_of_inv _ _ Hk) as (order' & id & Ho' & Hid & Hts).
    rewrite Ho in Ho'. injection Ho' as <-.
    step. destruct items; try discriminate; step;
      rewrite <- !app_assoc; eauto.
Qed.

Lemma own_record_webhook_types k P timestamp seen :
  own (record k P timestamp seen) "webhook_types" = Some (VArr seen).
Proof. reflexivity. Qed.

(** The tags written over a record that holds the tags [seen]. *)
Lemma webhook_types_found (st : state) (k tag : string)
  (attrs : list (string * value)) (seen : list string) :
  orders st !! k = Some attrs ->
  own attrs "webhook_types" = Some (VArr (map VStr seen)) ->
  webhook_types (found st k) (VStr tag) =
    ret (VArr (map VStr (tags_seen (seen ++ [tag])))).
Proof.
  intros Hk Hseen. unfold found, webhook_types. rewrite Hk, get_VObj, Hseen.
  cbn. rewrite <- Array_from_Set_tags, map_app. reflexivity.
Qed.

(** The first tag of a record. *)
Lemma webhook_types_absent (st : state) (k tag : string) :
  orders st !! k = None ->
  webhook_types (found st k) (VStr tag) = ret (VArr [VStr tag]).
Proof. intros Hk. unfold found. rewrite Hk. reflexivity. Qed.

(** Upserts for a key that holds a record: the tags add up. *)
Lemma deliveries_add_tags (TABLE_NAME : option string) (k : string)
  (ds : list delivery) (tags : list string) :
  Forall2 (fun d tag => exists P, upsert k tag P d) ds tags ->
  forall (st : state) (attrs : list (string * value)) (seen : list string),
    orders st !! k = Some attrs ->
    own attrs "webhook_types" = Some (VArr (map VStr seen)) ->
    NoDup seen ->
    exists attrs',
      orders (snd (deliveries TABLE_NAME ds st)) !! k = Some attrs' /\
      own attrs' "webhook_types" =
        Some (VArr (map VStr (fold_left add_tag tags seen))).
Proof.
  induction 1 as [|d tag ds tags [P Hd] _ IH]; intros st attrs seen Hk Hs Hnd.
  - exists attrs. split; assumption.
  - cbn [deliveries fold_left].
    rewrite (upsert_run TABLE_NAME d k tag P _ st Hd
               (webhook_types_found st k tag attrs seen Hk Hs)).
    rewrite tags_seen_snoc, (tags_seen_NoDup seen Hnd).
    match goal with
    | |- context [deliveries TABLE_NAME ds ?st1] =>
        destruct (IH st1 _ (add_tag seen tag)
                    (lookup_insert_eq _ _ _)
                    (own_record_webhook_types _ _ _ _)
                    (NoDup_add_tag seen tag Hnd)) as (attrs' & Hk' & Hs');
        destruct (deliveries TABLE_NAME ds st1) as [rs st2]
    end.
    exists attrs'. split; assumption.
Qed.

(** C6.  After upserts for one order with the tags t1..tN, on a table
    that had no record of it, the stored [webhook_types] holds each of the
    tags once and no other: the tags in the order of their first arrival.
    Two upserts with the same order id, items and tag leave the items as
    the first wrote them and the tag there once. *)
Theorem webhook_types_is_the_set_of_tags (TABLE_NAME : option string)
  (k : string) (ds : list delivery) (tags : list string) (st : state) :
  orders st !! k = None ->
  Forall2 (fun d tag => exists P, upsert k tag P d) ds tags ->
  tags <> [] ->
  (exists attrs,
     orders (snd (deliveries TABLE_NAME ds st)) !! k = Some attrs /\
     own attrs "webhook_types" = Some (VArr (map VStr (tags_seen tags)))) /\
  NoDup (tags_seen tags) /\
  (forall t, t ∈ tags_seen tags <-> t ∈ tags) /\
  (forall d1 d2 tag P,
     upsert k tag P d1 -> upsert k tag P d2 ->
     exists attrs1 attrs2,
       orders (snd (deliveries TABLE_NAME [d1] st)) !! k = Some attrs1 /\
       orders (snd (deliveries TABLE_NAME [d1; d2] st)) !! k = Some attrs2 /\
       own attrs1 "items" = Some (VArr P) /\
       own attrs2 "items" = Some (VArr P) /\
       own attrs2 "webhook_types" = Some (VArr [VStr tag])).
Proof.
  intros Hk Hds Hne.
  split; [|split; [apply tags_seen_set|split; [apply tags_seen_set|]]].
  - destruct Hds as [|d tag ds tags [P Hd] Hds]; [contradiction|].
    cbn [deliveries].
    rewrite (upsert_run TABLE_NAME d k tag P _ st Hd
               (webhook_types_absent st k tag Hk)).
    match goal with
    | |- context [deliveries TABLE_NAME ds ?st1] =>
        destruct (deliveries_add_tags TABLE_NAME k ds tags Hds st1 _ [tag]
                    (lookup_insert_eq _ _ _)
                    (own_record_webhook_types _ _ _ _)
                    (NoDup_singleton tag)) as (attrs' & Hk' & Hs');
        destruct (deliveries TABLE_NAME ds st1) as [rs st2]
    end.
    exists attrs'. split; [assumption|]. exact Hs'.
  - intros d1 d2 tag P H1 H2. cbn [deliveries].
    rewrite (upsert_run TABLE_NAME d1 k tag P _ st H1
               (webhook_types_absent st k tag Hk)).
    match goal with
    | |- context [handler TABLE_NAME (conditions d2) _ _ ?st1] =>
        rewrite (upsert_run TABLE_NAME d2 k tag P _ st1 H2
                   (webhook_types_found st1 k tag _ [tag]
                      (lookup_insert_eq _ _ _)
                      (own_record_webhook_types _ _ _ _)))
    end.
    eexists _, _. cbn [snd orders].
    split; [apply lookup_insert_eq|].
    split; [apply lookup_insert_eq|].
    repeat split.
    rewrite own_record_webhook_types. cbn. unfold add_tag at 2. cbn.
    unfold add_tag. rewrite bool_decide_eq_true_2 by (left). reflexivity.
Qed.

Lemma Array_map_parsedItem (items : list (list (string * value))) :
  Array_map parsedItem (map VObj items) = ret (map stored_item items).
Proof.
  induction items as [|item items IH]; [reflexivity|].
  cbn [map].
  change (Array_map parsedItem (VObj item :: map VObj items))
    with (rbind (parsedItem (VObj item))
            (fun y =>
               rbind (Array_map parsedItem (map VObj items))
                 (fun ys => ret (y :: ys)))).
  rewrite IH. reflexivity.
Qed.

(** C7.  An upsert for an order that is stored with other items is a
    conflict that is logged as a warning and goes through: the items of
    the payload, each with its five fields as delivered, replace the
    stored ones, the tag joins the tags seen, none of which is lost, and
    the response is a success. *)
Theorem conflicting_items_overwrite (TABLE_NAME : option string)
  (w : world) (payload order : value)
  (items : list (list (string * value))) (k tag : string)
  (context attrs : list (string * value)) (seen : list string)
  (st : state) :
  get payload "webhook_type" = ret (VStr tag) ->
  includes allowedWebhookTypes (VStr tag) = true ->
  missing_order payload = ret false ->
  orderId_of payload = ret k ->
  get payload "order" = ret order ->
  get order "items" = ret (VArr (map VObj items)) ->
  dynamo_get_fault w k = None ->
  (forall Item, dynamo_put_fault w Item = None) ->
  orders st !! k = Some attrs ->
  stringify_differs (default VUndefined (own attrs "items"))
    (VArr (map stored_item items)) = true ->
  own attrs "webhook_types" = Some (VArr (map VStr seen)) ->
  handler TABLE_NAME w (ret payload) (VObj context) st =
    (ret (respond 200
            (VObj [("message", VStr "Order processed successfully")])),
     {| orders :=
          <[k := [("order_id", VStr k);
                  ("items", VArr (map stored_item items));
                  ("last_updated", VStr (Date_toISOString (clock w)));
                  ("webhook_types",
                   VArr (map VStr (tags_seen (seen ++ [tag]))))]]>
            (orders st);
        trace :=
          trace st ++
          [Console Log; DynamoGet TABLE_NAME k; Console Warn;
           DynamoPut TABLE_NAME
             (VObj [("order_id", VStr k);
                    ("items", VArr (map stored_item items));
                    ("last_updated", VStr (Date_toISOString (clock w)));
                    ("webhook_types",
                     VArr (map VStr (tags_seen (seen ++ [tag]))))]);
           Console Log] |}) /\
  tag ∈ tags_seen (seen ++ [tag]) /\
  (forall t, t ∈ seen -> t ∈ tags_seen (seen ++ [tag])) /\
  NoDup (tags_seen (seen ++ [tag])).
Proof.
  intros Htag Hal Hm Hid Horder Hitems Hrd Hwr Hk Hdiff Hseen.
  destruct (tags_seen_set (seen ++ [tag])) as [Hnd Hin].
  assert (Hd : upsert k tag (map stored_item items)
                 {| conditions := w; parsed := ret payload;
                    context := VObj context |}).
  { constructor; cbn.
    - eexists. reflexivity.
    - exists payload. repeat split; try assumption.
      unfold parsedItems_of. rewrite Horder. cbn. rewrite Hitems.
      apply Array_map_parsedItem.
    - exact Hal.
    - exact Hrd.
    - exact Hwr. }
  split; [|split; [|split]].
  - pose proof (upsert_run TABLE_NAME _ k tag _ _ st Hd
                  (webhook_types_found st k tag attrs seen Hk Hseen)) as Hrun.
    cbn [conditions parsed KonverzkyOrderConsumer.context] in Hrun.
    rewrite Hrun. unfold compared, record. rewrite Hk, Hdiff. reflexivity.
  - apply Hin, elem_of_app. right. left.
  - intros t Ht. apply Hin, elem_of_app. left. exact Ht.
  - exact Hnd.
Qed.

End Facts.

End OrderFacts.

(** * Properties of the Stripe event processor *)

Module StripeFacts.
Import JS Cloud StripeProcessor.

Section Facts.
Context {rt : Runtime}.
Variable env : environment.
Variable w : world.

#[local] Arguments get : simpl never.
#[local] Arguments ToString : simpl never.
#[local] Arguments toString : simpl never.
#[local] Arguments required : simpl never.
#[local] Arguments stringify : simpl never.
#[local] Arguments respond : simpl never.
#[local] Arguments missing_order_number : simpl never.
#[local] Arguments retryPayload : simpl never.
#[local] Arguments Message : simpl never.
#[local] Arguments Subject : simpl never.

Lemma is_set_required (v : option string) :
  is_set v = true ->
  exists s, v = Some s /\ forall name, required v name = ret s.
Proof.
  destruct v as [s|]; simpl; [|discriminate].
  intros H. exists s. split; [reflexivity|]. intros name.
  unfold required. destruct (String.eqb s ""); [discriminate|reflexivity].
Qed.

(** Only an object has a property that is a string. *)
Lemma get_VStr (v : value) (k s : string) :
  get v k = ret (VStr s) -> exists props, v = VObj props.
Proof.
  destruct v; unfold get; simpl; try discriminate; eauto.
  all: destruct (String.eqb k "length"); discriminate.
Qed.

Lemma eqb_neq (a b : string) : a <> b -> String.eqb a b = false.
Proof. intros H. apply String.eqb_neq. exact H. Qed.

Lemma upper_truthy (code : string) :
  code <> "" -> falsy (VStr (String_toUpperCase code)) = false.
Proof.
  intros H. unfold falsy. simpl.
  destruct (String.eqb_spec (String_toUpperCase code) ""); [|reflexivity].
  exfalso. apply H. apply String_toUpperCase_nonempty. assumption.
Qed.

Lemma ToString_VStr (s : string) : ToString (VStr s) = ret s.
Proof. reflexivity. Qed.

Lemma toString_VStr (s : string) : toString (VStr s) = ret s.
Proof. reflexivity. Qed.

Lemma upper_nonempty (code : string) :
  code <> "" -> String.eqb (String_toUpperCase code) "" = false.
Proof.
  intros H. apply String.eqb_neq. intros E. apply H.
  apply String_toUpperCase_nonempty. exact E.
Qed.

(** [v.toString()] and [`${v}`] agree where the former returns. *)
Lemma toString_ToString (v : value) (s : string) :
  toString v = ret s -> ToString v = ret s.
Proof.
  destruct v; unfold toString; try discriminate; try (intros H; exact H).
  unfold ToString. destruct (own props "toString"); [discriminate|].
  intros H; exact H.
Qed.

Lemma order_reference_inv (charge : value) (k : string) :
  order_reference charge = ret k ->
  exists metadata order_number,
    get charge "metadata" = ret metadata /\
    get metadata "order_number" = ret order_number /\
    toString order_number = ret k.
Proof.
  unfold order_reference. intros H.
  destruct (get charge "metadata") as [e|metadata] eqn:Em; [discriminate|].
  simpl in H.
  destruct (get metadata "order_number") as [e|n] eqn:En; [discriminate|].
  simpl in H. eauto.
Qed.

Lemma charge_id_inv (charge : value) (id : string) :
  charge_id charge = ret id ->
  exists v, get charge "id" = ret v /\ ToString v = ret id.
Proof.
  unfold charge_id. intros H.
  destruct (get charge "id") as [e|v] eqn:Ev; [discriminate|].
  simpl in H. eauto.
Qed.

Ltac configure H :=
  unfold configured in H; rewrite !andb_true_iff in H;
  destruct H as [[[[[[[?H ?H] ?H] ?H] ?H] ?H] ?H] ?H];
  repeat match goal with
    | H' : is_set ?v = true |- _ =>
        let s := fresh "s" in
        let E := fresh "E" in
        let R := fresh "R" in
        destruct (is_set_required v H') as (s & E & R); clear H'
    end.

Ltac run :=
  cbv beta iota zeta
      delta [bind lift pure raise attempt emit console template rbind ret
             throw throw_on_charge];
  cbn.

Ltac step :=
  repeat first
    [ progress run
    | match goal with
      | H : get ?v ?k = _ |- context [get ?v ?k] => rewrite H
      | H : ToString ?v = _ |- context [ToString ?v] => rewrite H
      | H : toString ?v = _ |- context [toString ?v] => rewrite H
      | H : missing_order_number ?v = _
        |- context [missing_order_number ?v] => rewrite H
      | H : ?a <> ?b |- context [String.eqb ?a ?b] => rewrite (eqb_neq a b H)
      | H : ?c <> "" |- context [String.eqb (String_toUpperCase ?c) ""] =>
          rewrite (upper_nonempty c H)
      | H : ?c <> "" |- context [falsy (VStr (String_toUpperCase ?c))] =>
          rewrite (upper_truthy c H)
      | |- context [ToString (VStr ?s)] => rewrite (ToString_VStr s)
      | |- context [toString (VStr ?s)] => rewrite (toString_VStr s)
      | H : falsy ?v = _ |- context [falsy ?v] => rewrite H
      | H : truthy ?v = _ |- context [truthy ?v] => rewrite H
      | H : truthy ?v = ?b |- context [falsy ?v] => unfold falsy; rewrite H
      end ].

(** Past the configuration and the checks of the charge. *)
Ltac enter Hc Hev :=
  let data := fresh "data" in
  let code := fresh "code" in
  let props := fresh "props" in
  let Hd := fresh "Hd" in
  let Ho := fresh "Ho" in
  let Hcur := fresh "Hcur" in
  let Hne := fresh "Hne" in
  let Ht := fresh "Ht" in
  destruct Hev as [(data & Hd & Ho) (code & Hcur & Hne) Ht];
  destruct (get_VStr _ _ _ Hcur) as [props ->];
  configure Hc; unfold processStripeEvent;
  repeat match goal with
    | R : forall name, required ?v name = ret _ |- _ => rewrite !R; clear R
    end;
  step.

(** An event of another type is answered and nothing is called; an event
    whose charge has no currency code is rejected before its type is
    looked at. *)
Lemma other_type_ignored stripeEvent data charge code type st :
  configured env = true ->
  get stripeEvent "data" = ret data ->
  get data "object" = ret charge ->
  get charge "currency" = ret (VStr code) ->
  code <> "" ->
  get stripeEvent "type" = ret (VStr type) ->
  type <> "charge.succeeded" ->
  processStripeEvent env w stripeEvent st =
    (ret (respond 200 (VObj [("message", VStr type)])),
     {| orders := orders st; trace := trace st ++ [Console Log; Console Log] |}).
Proof.
  intros Hc Hd Ho Hcur Hne Ht Hnt.
  destruct (get_VStr _ _ _ Hcur) as [cprops ->].
  configure Hc. unfold processStripeEvent.
  repeat match goal with
    | R : forall name, required ?v name = ret _ |- _ => rewrite !R; clear R
    end.
  step.
  rewrite <- ?app_assoc. reflexivity.
Qed.

Lemma no_currency_rejected stripeEvent data charge code st :
  configured env = true ->
  get stripeEvent "data" = ret data ->
  get data "object" = ret charge ->
  truthy charge = true ->
  get charge "currency" = ret code ->
  truthy code = false ->
  exists error,
    processStripeEvent env w stripeEvent st =
      (throw error,
       {| orders := orders st; trace := trace st ++ [Console Log] |}).
Proof.
  intros Hc Hd Ho Hch Hcur Hf.
  configure Hc. unfold processStripeEvent.
  repeat match goal with
    | R : forall name, required ?v name = ret _ |- _ => rewrite !R; clear R
    end.
  assert (exists v, get charge "id" = ret v) as [v Hv].
  { destruct charge; try discriminate; unfold get; eauto. }
  step. destruct (ToString v) as [e|name]; step; eauto.
Qed.

(** The notification path, whatever the channel answers. *)
Lemma notify_run stripeEvent charge id st :
  configured env = true ->
  charge_succeeded stripeEvent charge ->
  missing_order_number charge = ret true ->
  charge_id charge = ret id ->
  processStripeEvent env w stripeEvent st =
    match sns_publish w (Subject id) (Message w charge) with
    | inr _ =>
        (ret (respond 200
                (VObj [("message",
                        VStr "Manual order handling notification sent")])),
         {| orders := orders st;
            trace := trace st ++
                     [Console Log; Console Log;
                      SnsPublish (SNS_TOPIC_ARN env) (Subject id)
                        (Message w charge);
                      Console Log] |})
    | inl error =>
        (throw error,
         {| orders := orders st;
            trace := trace st ++
                     [Console Log; Console Log;
                      SnsPublish (SNS_TOPIC_ARN env) (Subject id)
                        (Message w charge);
                      Console Err] |})
    end.
Proof.
  intros Hc Hev Hm Hid.
  destruct (charge_id_inv _ _ Hid) as (v & Hv & Hs).
  enter Hc Hev. unfold sendManualOrderNotification. step.
  destruct (sns_publish w (Subject id) (Message w (VObj props)));
    step; rewrite <- !app_assoc; reflexivity.
Qed.

(** The retry path, whatever the queue answers. *)
Lemma retry_run stripeEvent charge customerId k st :
  configured env = true ->
  charge_succeeded stripeEvent charge ->
  missing_order_number charge = ret false ->
  get charge "customer" = ret customerId ->
  truthy customerId = true ->
  order_reference charge = ret k ->
  dynamo_get_fault w k = None ->
  orders st !! k = None ->
  processStripeEvent env w stripeEvent st =
    match sqs_send w (stringify (retryPayload w k stripeEvent)) with
    | inr _ =>
        (ret (respond 200
                (VObj [("error",
                        VStr "Order not found, event queued for retry")])),
         {| orders := orders st;
            trace := trace st ++
                     [Console Log; Console Log;
                      DynamoGet (TABLE_NAME env) k; Console Err;
                      SqsSendMessage (RETRY_QUEUE_URL env)
                        (stringify (retryPayload w k stripeEvent)) 5;
                      Console Log] |})
    | inl error =>
        (throw error,
         {| orders := orders st;
            trace := trace st ++
                     [Console Log; Console Log;
                      DynamoGet (TABLE_NAME env) k; Console Err;
                      SqsSendMessage (RETRY_QUEUE_URL env)
                        (stringify (retryPayload w k stripeEvent)) 5;
                      Console Err] |})
    end.
Proof.
  intros Hc Hev Hm Hcust Htr Hk Hfault Habsent.
  destruct (order_reference_inv _ _ Hk) as (metadata & n & Hmeta & Hn & Hts).
  pose proof (toString_ToString _ _ Hts) as HTs.
  enter Hc Hev. step.
  unfold dynamo_Get. step. rewrite Hfault. step. rewrite Habsent. step.
  unfold sendRetryMessage. step.
  destruct (sqs_send w (stringify (retryPayload w k stripeEvent)));
    step; rewrite <- !app_assoc; reflexivity.
Qed.

(** The customer is looked at once the order reference is there. *)
Lemma no_customer_run stripeEvent charge customerId id st :
  configured env = true ->
  charge_succeeded stripeEvent charge ->
  missing_order_number charge = ret false ->
  charge_id charge = ret id ->
  get charge "customer" = ret customerId ->
  truthy customerId = false ->
  processStripeEvent env w stripeEvent st =
    (throw (Error ("No customer ID found on Charge " +:+ id +:+ ".")),
     {| orders := orders st; trace := trace st ++ [Console Log] |}).
Proof.
  intros Hc Hev Hm Hid Hcust Hfalsy.
  destruct (charge_id_inv _ _ Hid) as (v & Hv & Hs).
  enter Hc Hev. step. reflexivity.
Qed.

(** The unit price of a line is the stored one times 100, as floats
    multiply, and it is scaled there only. *)
Lemma line_scales_once (currency : value) (isNorwegian : bool)
  (props : list (string * value)) (id : string) (unit_price : float) :
  ToString (default VUndefined (own props "id")) = ret id ->
  own props "unit_price" = Some (VNum unit_price) ->
  line currency isNorwegian (VObj props) =
    ret (VObj [("currency", currency);
               ("vatType",
                VStr (if isNorwegian then "HIGH" else "EXEMPT_IMPORT_EXPORT"));
               ("incomeAccount", VNum (if isNorwegian then 3010 else 3110));
               ("productName", default VUndefined (own props "name"));
               ("description", default VUndefined (own props "name"));
               ("comment", VStr ("#" +:+ id));
               ("unitPrice", VNum (PrimFloat.mul unit_price 100));
               ("quantity", default VUndefined (own props "quantity"))]).
Proof.
  intros Hid Hprice. unfold line, get. cbn. rewrite Hid, Hprice. reflexivity.
Qed.

(** ** What a computation returns when it returns *)

Lemma post_pure {A} (a : A) (Q : A -> Prop) : Q a -> post (pure a) Q.
Proof. intros H st a' st' E. inversion E; subst. exact H. Qed.

Lemma post_raise {A} (e : exn) (Q : A -> Prop) : post (raise e) Q.
Proof. intros st a st' E. discriminate E. Qed.

Lemma post_bind {A B} (m : M A) (k : A -> M B) (Q : B -> Prop) :
  (forall a, post (k a) Q) -> post (bind m k) Q.
Proof.
  intros H st b st' E. unfold bind in E.
  destruct (m st) as [[e|a] st1]; [discriminate|].
  exact (H a st1 b st' E).
Qed.

Ltac post_step :=
  first
    [ apply post_raise
    | apply post_pure; reflexivity
    | apply post_bind; intros
    | match goal with
      | |- post (if ?c then _ else _) _ => destruct c
      | |- post (match ?x with _ => _ end) _ => destruct x
      end ].

Lemma invoice_succeeds b p c f k charge currency customerId orderId record :
  post (invoice w b p c f k charge currency customerId orderId record) succeeds.
Proof. unfold invoice, throw_on_charge. repeat post_step. Qed.

Lemma processStripeEvent_succeeds stripeEvent :
  post (processStripeEvent env w stripeEvent) succeeds.
Proof.
  unfold processStripeEvent, throw_on_charge.
  repeat first [ apply invoice_succeeds | post_step ].
Qed.

End Facts.

Section Claims.
Context {rt : Runtime}.
Variable env : environment.

(** C3, as the code has it.  An event whose type is not
    [charge.succeeded] and whose charge carries a currency code is
    answered with a success response naming the type, and nothing is
    called: the store, the queue, the channel and the ledger are left
    alone.  The currency is checked before the type: an event whose charge
    has no currency code is rejected with an error, whatever its type. *)
Theorem other_event_types_are_ignored
  (w : world) (stripeEvent data charge : value) (st : state) :
  configured env = true ->
  get stripeEvent "data" = ret data ->
  get data "object" = ret charge ->
  truthy charge = true ->
  (forall code type,
     get charge "currency" = ret (VStr code) -> code <> "" ->
     get stripeEvent "type" = ret (VStr type) -> type <> "charge.succeeded" ->
     processStripeEvent env w stripeEvent st =
       (ret (respond 200 (VObj [("message", VStr type)])),
        {| orders := orders st;
           trace := trace st ++ [Console Log; Console Log] |})) /\
  (forall code,
     get charge "currency" = ret code -> truthy code = false ->
     exists error,
       processStripeEvent env w stripeEvent st =
         (throw error,
          {| orders := orders st; trace := trace st ++ [Console Log] |})).
Proof.
  intros Hc Hd Ho Hch. split.
  - intros code type Hcur Hne Ht Hnt.
    exact (other_type_ignored env w _ _ _ _ _ st Hc Hd Ho Hcur Hne Ht Hnt).
  - intros code Hcur Hf.
    exact (no_currency_rejected env w _ _ _ _ st Hc Hd Ho Hch Hcur Hf).
Qed.

(** C1, as the code has it.  When the order of a [charge.succeeded] event
    is not in the store, the message sent to the retry queue is
    [{ order_number, stripeEvent, timestamp }]: the key, the event as it
    came and the time.  It carries no attempt counter, on the first
    arrival and on a redelivery alike, and the event it carries is the one
    a redelivery processes. *)
Theorem retry_envelope_carries_no_attempt
  (w : world) (stripeEvent charge customerId : value) (k : string)
  (st : state) :
  configured env = true ->
  charge_succeeded stripeEvent charge ->
  missing_order_number charge = ret false ->
  get charge "customer" = ret customerId ->
  truthy customerId = true ->
  order_reference charge = ret k ->
  dynamo_get_fault w k = None ->
  orders st !! k = None ->
  (exists outcome l,
     processStripeEvent env w stripeEvent st =
       (outcome,
        {| orders := orders st;
           trace := trace st ++
                    [Console Log; Console Log;
                     DynamoGet (TABLE_NAME env) k; Console Err;
                     SqsSendMessage (RETRY_QUEUE_URL env)
                       (stringify (retryPayload w k stripeEvent)) 5;
                     Console l] |})) /\
  retryPayload w k stripeEvent =
    VObj [("order_number", VStr k);
          ("stripeEvent", stripeEvent);
          ("timestamp", VStr (Date_toISOString (clock w)))] /\
  get (retryPayload w k stripeEvent) "attempt" = ret VUndefined /\
  get (retryPayload w k stripeEvent) "stripeEvent" = ret stripeEvent.
Proof.
  intros Hc Hev Hm Hcust Htr Hk Hfault Habsent.
  split; [|repeat split].
  rewrite (retry_run env w _ _ _ _ st Hc Hev Hm Hcust Htr Hk Hfault Habsent).
  destruct (sqs_send w (stringify (retryPayload w k stripeEvent))); eauto.
Qed.

(** C4.  A valid [charge.succeeded] event whose order is not in the store
    is not an error: the event itself is sent to the retry queue, in an
    envelope that holds the order number, the event and the time, with a
    delay of 5; the response is a success, and Stripe and Fiken are not
    called. *)
Theorem order_not_found_queues_retry
  (w : world) (stripeEvent charge customerId : value) (k : string)
  (response : list (string * value)) (st : state) :
  configured env = true ->
  charge_succeeded stripeEvent charge ->
  missing_order_number charge = ret false ->
  get charge "customer" = ret customerId ->
  truthy customerId = true ->
  order_reference charge = ret k ->
  dynamo_get_fault w k = None ->
  orders st !! k = None ->
  sqs_send w
    (stringify
       (VObj [("order_number", VStr k);
              ("stripeEvent", stripeEvent);
              ("timestamp", VStr (Date_toISOString (clock w)))])) =
    ret response ->
  processStripeEvent env w stripeEvent st =
    (ret (respond 200
            (VObj [("error", VStr "Order not found, event queued for retry")])),
     {| orders := orders st;
        trace := trace st ++
                 [Console Log; Console Log;
                  DynamoGet (TABLE_NAME env) k; Console Err;
                  SqsSendMessage (RETRY_QUEUE_URL env)
                    (stringify
                       (VObj [("order_number", VStr k);
                              ("stripeEvent", stripeEvent);
                              ("timestamp",
                               VStr (Date_toISOString (clock w)))]))
                    5;
                  Console Log] |}).
Proof.
  intros Hc Hev Hm Hcust Htr Hk Hfault Habsent Hsent.
  rewrite (retry_run env w _ _ _ _ st Hc Hev Hm Hcust Htr Hk Hfault Habsent).
  unfold retryPayload. rewrite Hsent. reflexivity.
Qed.

(** C5.  A [charge.succeeded] event without [metadata.order_number] is
    handed to the notification channel and answered with a success; no
    retry message is sent.  Delivered again, it is notified again and
    answered the same. *)
Theorem missing_order_reference_notifies
  (w w' : world) (stripeEvent charge : value) (id : string)
  (response response' : list (string * value)) (st : state) :
  configured env = true ->
  charge_succeeded stripeEvent charge ->
  missing_order_number charge = ret true ->
  charge_id charge = ret id ->
  sns_publish w (Subject id) (Message w charge) = ret response ->
  sns_publish w' (Subject id) (Message w' charge) = ret response' ->
  processStripeEvent env w stripeEvent st =
    (ret (respond 200
            (VObj [("message",
                    VStr "Manual order handling notification sent")])),
     {| orders := orders st;
        trace := trace st ++
                 [Console Log; Console Log;
                  SnsPublish (SNS_TOPIC_ARN env) (Subject id)
                    (Message w charge);
                  Console Log] |}) /\
  processStripeEvent env w' stripeEvent
    {| orders := orders st;
       trace := trace st ++
                [Console Log; Console Log;
                 SnsPublish (SNS_TOPIC_ARN env) (Subject id)
                   (Message w charge);
                 Console Log] |} =
    (ret (respond 200
            (VObj [("message",
                    VStr "Manual order handling notification sent")])),
     {| orders := orders st;
        trace := (trace st ++
                  [Console Log; Console Log;
                   SnsPublish (SNS_TOPIC_ARN env) (Subject id)
                     (Message w charge);
                   Console Log]) ++
                 [Console Log; Console Log;
                  SnsPublish (SNS_TOPIC_ARN env) (Subject id)
                    (Message w' charge);
                  Console Log] |}).
Proof.
  intros Hc Hev Hm Hid Hsent Hsent'. split.
  - rewrite (notify_run env w _ _ _ st Hc Hev Hm Hid), Hsent. reflexivity.
  - rewrite (notify_run env w' _ _ _ _ Hc Hev Hm Hid), Hsent'. reflexivity.
Qed.

(** C9.  The order reference is looked at before the customer.  For a
    [charge.succeeded] event without a customer: if the order reference is
    missing too, the notification channel is called, and the response is a
    success when the channel accepts; only if the order reference is there
    is the event rejected for its missing customer, and then nothing has
    been called. *)
Theorem order_reference_is_checked_before_customer
  (w : world) (stripeEvent charge customerId : value) (id : string)
  (st : state) :
  configured env = true ->
  charge_succeeded stripeEvent charge ->
  charge_id charge = ret id ->
  get charge "customer" = ret customerId ->
  truthy customerId = false ->
  (missing_order_number charge = ret true ->
   (exists outcome l,
      processStripeEvent env w stripeEvent st =
        (outcome,
         {| orders := orders st;
            trace := trace st ++
                     [Console Log; Console Log;
                      SnsPublish (SNS_TOPIC_ARN env) (Subject id)
                        (Message w charge);
                      Console l] |})) /\
   (forall response,
      sns_publish w (Subject id) (Message w charge) = ret response ->
      processStripeEvent env w stripeEvent st =
        (ret (respond 200
                (VObj [("message",
                        VStr "Manual order handling notification sent")])),
         {| orders := orders st;
            trace := trace st ++
                     [Console Log; Console Log;
                      SnsPublish (SNS_TOPIC_ARN env) (Subject id)
                        (Message w charge);
                      Console Log] |}))) /\
  (missing_order_number charge = ret false ->
   processStripeEvent env w stripeEvent st =
     (throw (Error ("No customer ID found on Charge " +:+ id +:+ ".")),
      {| orders := orders st; trace := trace st ++ [Console Log] |})).
Proof.
  intros Hc Hev Hid Hcust Hfalsy. split.
  - intros Hm.
    rewrite (notify_run env w _ _ _ st Hc Hev Hm Hid). split.
    + destruct (sns_publish w (Subject id) (Message w charge)); eauto.
    + intros response ->. reflexivity.
  - intros Hm.
    exact (no_customer_run env w _ _ _ _ st Hc Hev Hm Hid Hcust Hfalsy).
Qed.

(** C10.  Invoked with a context object, the handler returns a response
    whatever the event and whatever the services answer: a success, or a
    server error carrying the message of the error that was thrown.
    Nothing thrown while an event is processed leaves the handler. *)
Theorem handler_always_responds
  (w : world) (event : event) (context : list (string * value))
  (st : state) :
  (exists response st',
     handler env w event (VObj context) st = (ret response, st') /\
     (statusCode response = 200%float \/
      exists error,
        response = respond 500 (VObj [("error", VStr (message error))]))) /\
  (forall stripeEvent,
     event = Direct (ret stripeEvent) ->
     handler env w event (VObj context) st =
       match processStripeEvent env w stripeEvent st with
       | (inr response, st') => (ret response, st')
       | (inl error, st') =>
           (ret (respond 500 (VObj [("error", VStr (message error))])),
            {| orders := orders st';
               trace := trace st' ++ [Console Err] |})
       end).
Proof.
  split.
  - unfold handler.
    cbv beta iota zeta
        delta [bind attempt set_callbackWaitsForEmptyEventLoop pure].
    match goal with
    | |- context [match ?m st with _ => _ end] =>
        destruct (m st) as [[error|response] st'] eqn:E
    end.
    + eexists _, _. split; [reflexivity|]. right. eauto.
    + eexists _, _. split; [reflexivity|]. left.
      revert E. destruct event as [bodies|body].
      * apply (post_bind _ _ succeeds). intros outcomes.
        apply post_bind. intros results.
        apply post_bind. intros _. apply post_pure. reflexivity.
      * apply (post_bind _ _ succeeds). intros stripeEvent.
        apply processStripeEvent_succeeds.
  - intros stripeEvent ->. unfold handler.
    cbv beta iota zeta
        delta [bind attempt set_callbackWaitsForEmptyEventLoop pure lift
               console emit ret].
    destruct (processStripeEvent env w stripeEvent st) as [[error|response] st'];
      reflexivity.
Qed.

(** C2, at the price of the comment in the source.  A stored unit price
    is multiplied by 100 as a binary64 float, once: for Scenario A's 9.99
    the line has the unit price 999, the quantity 2 and the export
    account; for 19.99 the unit price submitted is 1998.9999999999998, not
    the 1999 the source says it must be. *)
Theorem unit_price_times_100_is_a_float_product :
  lines (VStr "USD") false (VObj [("items", VArr [Scenarios.widget 9.99])]) =
    ret (VArr [VObj [("currency", VStr "USD");
                     ("vatType", VStr "EXEMPT_IMPORT_EXPORT");
                     ("incomeAccount", VNum 3110);
                     ("productName", VStr "Widget");
                     ("description", VStr "Widget");
                     ("comment", VStr "#w1");
                     ("unitPrice", VNum 999);
                     ("quantity", VNum 2)]]) /\
  lines (VStr "USD") false (VObj [("items", VArr [Scenarios.widget 19.99])]) =
    ret (VArr [VObj [("currency", VStr "USD");
                     ("vatType", VStr "EXEMPT_IMPORT_EXPORT");
                     ("incomeAccount", VNum 3110);
                     ("productName", VStr "Widget");
                     ("description", VStr "Widget");
                     ("comment", VStr "#w1");
                     ("unitPrice", VNum 1998.9999999999998);
                     ("quantity", VNum 2)]]) /\
  PrimFloat.ltb 1998.9999999999998 1999 = true /\
  PrimFloat.mul 19.99 100 <> 1999%float.
Proof.
  repeat split.
  intros E.
  assert (H : PrimFloat.ltb (PrimFloat.mul 19.99 100) 1999 = true)
    by reflexivity.
  rewrite E in H. discriminate H.
Qed.

End Claims.
End StripeFacts.

(** * The scenarios, run *)

Module Runs.
Import JS Cloud Scenarios.
Import KonverzkyOrderConsumer StripeProcessor OrderFacts StripeFacts.

#[local] Existing Instance AsciiRuntime.runtime.

Lemma charge_succeeded_scenario (order : list (string * value)) :
  charge_succeeded
    (charge "charge.succeeded" (("currency", VStr "usd") :: order))
    (charge_of (("currency", VStr "usd") :: order)).
Proof.
  constructor.
  - eexists. split; reflexivity.
  - exists "usd". split; [reflexivity|discriminate].
  - reflexivity.
Defined.

(** Scenario D. *)
Lemma other_event_types_are_ignored_witness :
  processStripeEvent env calm payment_failed empty =
    (ret (respond 200 (VObj [("message", VStr "charge.failed")])),
     {| orders := ∅; trace := [Console Log; Console Log] |}).
Proof.
  refine (proj1 (other_event_types_are_ignored env calm
                   payment_failed _ _ empty eq_refl eq_refl eq_refl eq_refl)
            "usd" "charge.failed" eq_refl _ eq_refl _); discriminate.
Defined.

(** A failed charge without a currency code is not ignored. *)
Lemma failed_charge_without_currency_is_rejected :
  get payment_failed_without_currency "type" = ret (VStr "charge.failed") /\
  StripeProcessor.handler env calm (Direct (ret payment_failed_without_currency))
    lambda_context empty =
    (ret (respond 500
            (VObj [("error",
                    VStr "Missing amount or currency on Charge ch_1.")])),
     {| orders := ∅; trace := [Console Log; Console Err] |}).
Proof. split; reflexivity. Qed.

(** Scenario B. *)
Lemma order_not_found_queues_retry_witness :
  processStripeEvent env calm (payment_confirmed "999") empty =
    (ret (respond 200
            (VObj [("error", VStr "Order not found, event queued for retry")])),
     {| orders := ∅;
        trace :=
          [Console Log; Console Log;
           DynamoGet (Some "KonverzkyOrders") "999"; Console Err;
           SqsSendMessage (Some "https://sqs.example/StripeRetryQueue")
             (stringify
                (VObj [("order_number", VStr "999");
                       ("stripeEvent", payment_confirmed "999");
                       ("timestamp", VStr "2025-11-03T07:20:00.123Z")]))
             5;
           Console Log] |}).
Proof.
  exact (order_not_found_queues_retry env calm
           (payment_confirmed "999") _ (VStr "cus_1") "999" _ empty
           eq_refl (charge_succeeded_scenario _) eq_refl eq_refl eq_refl
           eq_refl eq_refl eq_refl eq_refl).
Defined.

Lemma retry_envelope_carries_no_attempt_witness :
  get (retryPayload calm "999" (payment_confirmed "999"))
    "attempt" = ret VUndefined.
Proof.
  exact (proj1 (proj2 (proj2
           (retry_envelope_carries_no_attempt env calm
              (payment_confirmed "999") _ (VStr "cus_1") "999" empty
              eq_refl (charge_succeeded_scenario _) eq_refl eq_refl eq_refl
              eq_refl eq_refl eq_refl)))).
Defined.

(** Scenario B: the envelope sent has no attempt counter, so its attempt
    is not 1. *)
Lemma scenario_B_envelope_has_no_attempt :
  snd (StripeProcessor.handler env calm (Direct (ret (payment_confirmed "999")))
         lambda_context empty) =
    {| orders := ∅;
       trace :=
         [Console Log; Console Log;
          DynamoGet (Some "KonverzkyOrders") "999"; Console Err;
          SqsSendMessage (Some "https://sqs.example/StripeRetryQueue")
            (stringify
               (VObj [("order_number", VStr "999");
                      ("stripeEvent", payment_confirmed "999");
                      ("timestamp", VStr "2025-11-03T07:20:00.123Z")]))
            5;
          Console Log] |} /\
  get (VObj [("order_number", VStr "999");
             ("stripeEvent", payment_confirmed "999");
             ("timestamp", VStr "2025-11-03T07:20:00.123Z")]) "attempt" =
    ret VUndefined /\
  ret (A := value) VUndefined <> ret (VNum 1).
Proof.
  split; [vm_compute; reflexivity|].
  split; [reflexivity|discriminate].
Qed.

(** Scenario C, delivered twice. *)
Lemma missing_order_reference_notifies_witness :
  fst (processStripeEvent env calm payment_without_order empty) =
    ret (respond 200
           (VObj [("message",
                   VStr "Manual order handling notification sent")])).
Proof.
  exact (f_equal fst
           (proj1 (missing_order_reference_notifies env calm calm
                     payment_without_order _ "ch_1" _ _ empty
                     eq_refl (charge_succeeded_scenario _) eq_refl eq_refl
                     eq_refl eq_refl))).
Defined.

(** No order reference and no customer: notified, not rejected. *)
Lemma order_reference_is_checked_before_customer_witness :
  fst (processStripeEvent env calm
         payment_without_order_and_customer empty) =
    ret (respond 200
           (VObj [("message",
                   VStr "Manual order handling notification sent")])).
Proof.
  exact (f_equal fst
           (proj2 (proj1 (order_reference_is_checked_before_customer
                            env calm
                            payment_without_order_and_customer _ VUndefined
                            "ch_1" empty eq_refl
                            (charge_succeeded_scenario _) eq_refl eq_refl
                            eq_refl)
                     eq_refl)
              _ eq_refl)).
Defined.

Lemma upsert_scenario (tag : string) (unit_price : float) :
  includes allowedWebhookTypes (VStr tag) = true ->
  upsert "123" tag [widget unit_price] (delivered tag unit_price).
Proof.
  intros Hallowed. constructor.
  - eexists. reflexivity.
  - eexists. repeat split; reflexivity.
  - exact Hallowed.
  - reflexivity.
  - intros Item. reflexivity.
Defined.

(** Three deliveries of Scenario A's order, two of them with the same
    tag. *)
Lemma webhook_types_is_the_set_of_tags_witness :
  exists attrs,
    orders
      (snd (deliveries (Some "KonverzkyOrders")
              [delivered "order_paid" 9.99; delivered "upsell_paid" 9.99;
               delivered "order_paid" 9.99]
              empty)) !! "123" = Some attrs /\
    own attrs "webhook_types" =
      Some (VArr (map VStr
                    (tags_seen ["order_paid"; "upsell_paid"; "order_paid"]))).
Proof.
  refine (proj1 (webhook_types_is_the_set_of_tags (Some "KonverzkyOrders")
                   "123"
                   [delivered "order_paid" 9.99; delivered "upsell_paid" 9.99;
                    delivered "order_paid" 9.99]
                   ["order_paid"; "upsell_paid"; "order_paid"] empty
                   eq_refl _ _)).
  - repeat (constructor; [eexists; apply upsert_scenario; reflexivity|]).
    constructor.
  - discriminate.
Defined.

(** Scenario A's order delivered again with another price: the record
    now holds the widget at the price delivered last. *)
Lemma conflicting_items_overwrite_witness :
  KonverzkyOrderConsumer.handler (Some "KonverzkyOrders") calm
    (ret (order_created "123" "upsell_paid" [widget 19.99]))
    lambda_context (stored 9.99) =
    (ret (respond 200
            (VObj [("message", VStr "Order processed successfully")])),
     {| orders :=
          <["123" := [("order_id", VStr "123");
                      ("items", VArr [widget 19.99]);
                      ("last_updated", VStr "2025-11-03T07:20:00.123Z");
                      ("webhook_types",
                       VArr [VStr "order_paid"; VStr "upsell_paid"])]]>
            (orders (stored 9.99));
        trace :=
          [Console Log; DynamoGet (Some "KonverzkyOrders") "123";
           Console Warn;
           DynamoPut (Some "KonverzkyOrders")
             (VObj [("order_id", VStr "123");
                    ("items", VArr [widget 19.99]);
                    ("last_updated", VStr "2025-11-03T07:20:00.123Z");
                    ("webhook_types",
                     VArr [VStr "order_paid"; VStr "upsell_paid"])]);
           Console Log] |}).
Proof.
  refine (proj1 (conflicting_items_overwrite (Some "KonverzkyOrders") calm
                   (order_created "123" "upsell_paid" [widget 19.99])
                   (VObj [("id", VStr "123");
                          ("items", VArr [widget 19.99])])
                   [[("name", VStr "Widget"); ("id", VStr "w1");
                     ("quantity", VNum 2); ("unit_price", VNum 19.99);
                     ("vat", VNum 0)]]
                   "123" "upsell_paid" [("awsRequestId", VStr "req-1")]
                   _ ["order_paid"] (stored 9.99)
                   eq_refl eq_refl eq_refl eq_refl eq_refl eq_refl eq_refl
                   (fun _ => eq_refl) _ _ _)).
  - reflexivity.
  - vm_compute. reflexivity.
  - reflexivity.
Defined.

(** An allow-listed payload without an order id. *)
Lemma malformed_order_is_rejected_witness :
  exists reason,
    KonverzkyOrderConsumer.handler (Some "KonverzkyOrders") calm
      (ret order_without_id) (VObj [("awsRequestId", VStr "req-1")])
      (stored 9.99) =
      (ret (respond 400 (VObj [("error", VStr reason)])),
       {| orders := orders (stored 9.99);
          trace := trace (stored 9.99) ++ [Console Log; Console Err] |}).
Proof.
  exact (malformed_order_is_rejected (Some "KonverzkyOrders") calm
           order_without_id "order_paid" _ (stored 9.99) eq_refl eq_refl
           (or_introl eq_refl)).
Defined.

(** ** Scenario A, from the order to the invoice *)

Example scenario_A_order_is_stored :
  snd (KonverzkyOrderConsumer.handler (Some "KonverzkyOrders") calm
         (ret (order_created "123" "order_paid" [widget 9.99]))
         lambda_context empty) =
    {| orders := orders (stored 9.99);
       trace :=
         [Console Log; DynamoGet (Some "KonverzkyOrders") "123";
          DynamoPut (Some "KonverzkyOrders")
            (VObj (record "123" [widget 9.99] "2025-11-03T07:20:00.123Z"
                     [VStr "order_paid"]));
          Console Log] |}.
Proof. vm_compute. reflexivity. Qed.

Example scenario_A_invoice :
  fst (StripeProcessor.handler env calm (Direct (ret (payment_confirmed "123")))
         lambda_context (stored 9.99)) =
    ret (respond 200
           (VObj [("message",
                   VStr "Contact and invoice created and sent via email successfully")])) /\
  invoice_request 999 ∈
    trace (snd (StripeProcessor.handler env calm
                  (Direct (ret (payment_confirmed "123")))
                  lambda_context (stored 9.99))).
Proof.
  split; [vm_compute; reflexivity|].
  vm_compute. do 13 right. left.
Qed.

(** The same order at 19.99: the unit price sent to Fiken is not 1999. *)
Example scenario_A_invoice_at_19_99 :
  invoice_request 1998.9999999999998 ∈
    trace (snd (StripeProcessor.handler env calm
                  (Direct (ret (payment_confirmed "123")))
                  lambda_context (stored 19.99))).
Proof. vm_compute. do 13 right. left. Qed.

End Runs.

(** * More of the order consumer *)

Module OrderCoverage.
Import JS Cloud KonverzkyOrderConsumer OrderFacts Traces.

#[local] Arguments get : simpl never.
#[local] Arguments toString : simpl never.
#[local] Arguments stringify : simpl never.
#[local] Arguments respond : simpl never.
#[local] Arguments missing_order : simpl never.
#[local] Arguments webhook_types : simpl never.
#[local] Arguments Array_map : simpl never.
#[local] Arguments includes : simpl never.

Ltac run :=
  cbv beta iota zeta
      delta [bind lift pure raise attempt emit console rbind ret throw
             set_callbackWaitsForEmptyEventLoop];
  cbn.

Ltac step :=
  repeat first
    [ progress run
    | match goal with
      | H : get ?v ?k = _ |- context [get ?v ?k] => rewrite H
      | H : toString ?v = _ |- context [toString ?v] => rewrite H
      | H : missing_order ?v = _ |- context [missing_order ?v] => rewrite H
      | H : Array_map ?f ?v = _ |- context [Array_map ?f ?v] => rewrite H
      | H : webhook_types ?v ?t = _ |- context [webhook_types ?v ?t] =>
          rewrite H
      | H : includes ?l ?v = _ |- context [includes ?l ?v] => rewrite H
      | H : falsy ?v = _ |- context [falsy ?v] => rewrite H
      | |- context [get (VObj ?props) ?k] => rewrite (get_VObj props k)
      end ].

(** Every way through the handler, one goal each; [leaf] closes those
    that end before the write. *)
Ltac paths TABLE_NAME w parsed ctx st leaf :=
  unfold handler;
  destruct ctx; step; try leaf;
  (destruct parsed as [err|payload]; step; try leaf);
  (destruct (get payload "webhook_type") as [e|tag] eqn:Etag; step; try leaf);
  (destruct (falsy tag || negb (includes allowedWebhookTypes tag)) eqn:Eallowed;
   step; try leaf);
  (destruct (missing_order payload) as [e|[|]] eqn:Emissing; step; try leaf);
  (destruct (get payload "order") as [e|order] eqn:Eorder; step; try leaf);
  (destruct (get order "id") as [e|id] eqn:Eid; step; try leaf);
  (destruct (toString id) as [e|k] eqn:Ek; step; try leaf);
  (destruct (get order "items") as [e|items] eqn:Eitems; step; try leaf);
  (destruct items as [| | | | |items|]; step; try leaf);
  (destruct (Array_map parsedItem items) as [e|P] eqn:EP; step; try leaf);
  unfold dynamo_Get; step;
  (destruct (dynamo_get_fault w k) as [e|] eqn:Eread; step; try leaf);
  (destruct (orders st !! k) as [attrs|] eqn:Efound; step;
   [destruct (stringify_differs (default VUndefined (own attrs "items"))
                (VArr P)); step|]);
  (match goal with
   | |- context [webhook_types ?v ?t] =>
       destruct (webhook_types v t) as [e|seen] eqn:Eseen; step; try leaf
   end);
  unfold dynamo_Put; step;
  (match goal with
   | |- context [dynamo_put_fault w ?item] =>
       destruct (dynamo_put_fault w item) as [e|] eqn:Ewrite; step; try leaf
   end).

Section Coverage.
Context {rt : Runtime}.

(** X1.  A body that does not parse is answered with a client error;
    the table is not looked at. *)
Theorem invalid_json_is_rejected (TABLE_NAME : option string) (w : world)
  (err : exn) (context : list (string * value)) (st : state) :
  handler TABLE_NAME w (throw err) (VObj context) st =
    (ret (respond 400 (VObj [("error", VStr "Invalid JSON in request body")])),
     {| orders := orders st;
        trace := trace st ++ [Console Log; Console Err] |}).
Proof. unfold handler. step. rewrite <- !app_assoc. reflexivity. Qed.

(** X2.  A payload whose [webhook_type] is not one of the three allowed
    tags (or is not there) is acknowledged with a success and dropped:
    the table is not looked at, whatever else the payload holds. *)
Theorem unsupported_webhook_type_is_ignored (TABLE_NAME : option string)
  (w : world) (payload webhook_type : value)
  (context : list (string * value)) (st : state) :
  get payload "webhook_type" = ret webhook_type ->
  includes allowedWebhookTypes webhook_type = false ->
  handler TABLE_NAME w (ret payload) (VObj context) st =
    (ret (respond 200
            (VObj [("message", VStr "Ignored unsupported webhook_type")])),
     {| orders := orders st;
        trace := trace st ++ [Console Log; Console Log] |}).
Proof.
  intros Htag Hout. unfold handler. step.
  rewrite orb_true_r. step. rewrite <- !app_assoc. reflexivity.
Qed.

(** X3.  When DynamoDB fails to answer the read, the response is a server
    error and nothing is written. *)
Theorem read_failure_is_a_server_error (TABLE_NAME : option string)
  (w : world) (payload : value) (tag k : string) (P : list value)
  (err : exn) (context : list (string * value)) (st : state) :
  get payload "webhook_type" = ret (VStr tag) ->
  includes allowedWebhookTypes (VStr tag) = true ->
  missing_order payload = ret false ->
  orderId_of payload = ret k ->
  parsedItems_of payload = ret P ->
  dynamo_get_fault w k = Some err ->
  handler TABLE_NAME w (ret payload) (VObj context) st =
    (ret (respond 500 (VObj [("error", VStr "Error reading from database")])),
     {| orders := orders st;
        trace := trace st ++
                 [Console Log; DynamoGet TABLE_NAME k; Console Err] |}).
Proof.
  intros Htag Hal Hm Hk HP Hfault.
  destruct (orderId_of_inv _ _ Hk) as (order & id & Ho & Hid & Hts).
  destruct (parsedItems_of_inv _ _ _ Ho HP) as (items & Hitems & Hmap).
  pose proof (allowed_truthy _ Hal) as Htruthy.
  unfold handler. step. unfold dynamo_Get. step. rewrite Hfault. step.
  rewrite <- !app_assoc. reflexivity.
Qed.

(** X4.  When DynamoDB refuses the write, the response is a server error
    and the table keeps what it had: the record is not replaced. *)
Theorem write_failure_keeps_the_table (TABLE_NAME : option string)
  (w : world) (payload : value) (tag k : string) (P seen : list value)
  (err : exn) (context : list (string * value)) (st : state) :
  get payload "webhook_type" = ret (VStr tag) ->
  includes allowedWebhookTypes (VStr tag) = true ->
  missing_order payload = ret false ->
  orderId_of payload = ret k ->
  parsedItems_of payload = ret P ->
  dynamo_get_fault w k = None ->
  webhook_types (found st k) (VStr tag) = ret (VArr seen) ->
  dynamo_put_fault w
    (VObj (record k P (Date_toISOString (clock w)) seen)) = Some err ->
  handler TABLE_NAME w (ret payload) (VObj context) st =
    (ret (respond 500 (VObj [("error", VStr "Error writing to database")])),
     {| orders := orders st;
        trace := trace st ++ [Console Log; DynamoGet TABLE_NAME k] ++
                 compared st k P ++
                 [DynamoPut TABLE_NAME
                    (VObj (record k P (Date_toISOString (clock w)) seen));
                  Console Err] |}).
Proof.
  intros Htag Hal Hm Hk HP Hrd Hseen Hwr.
  destruct (orderId_of_inv _ _ Hk) as (order & id & Ho & Hid & Hts).
  destruct (parsedItems_of_inv _ _ _ Ho HP) as (items & Hitems & Hmap).
  pose proof (allowed_truthy _ Hal) as Htruthy.
  unfold handler. step. unfold dynamo_Get. step. rewrite Hrd. step.
  unfold found, compared, record in *.
  destruct (orders st !! k) as [attrs|] eqn:Ek; step.
  - destruct (stringify_differs _ _); step;
      unfold dynamo_Put; step; rewrite Hwr; step;
      rewrite <- !app_assoc; reflexivity.
  - unfold dynamo_Put. step. rewrite Hwr. step.
    rewrite <- !app_assoc. reflexivity.
Qed.

(** X5.  Keeping the five fields of an item is a projection: an item
    that has been through it comes out of it unchanged, so items read back
    from the table and delivered again are the items stored. *)
Theorem parsedItem_is_a_projection (item kept : value) :
  parsedItem item = ret kept -> parsedItem kept = ret kept.
Proof.
  destruct item; try discriminate; intros H; injection H as <-; reflexivity.
Qed.

(** What is written as [webhook_types] is an array. *)
Lemma webhook_types_is_array (existingOrder tag seen : value) :
  webhook_types existingOrder tag = ret seen -> exists l, seen = VArr l.
Proof.
  unfold webhook_types. destruct (truthy existingOrder); [|intros [= <-]; eauto].
  destruct (get existingOrder "webhook_types") as [e|s]; [discriminate|].
  cbn. destruct (truthy s); [|intros [= <-]; eauto].
  destruct (spread s) as [e|elems]; [discriminate|].
  cbn. intros [= <-]. eauto.
Qed.

(** X6.  Whatever it is invoked with, the handler calls nothing but the
    table: it reads it at most once, writes it at most once, and never
    writes without having read. *)
Theorem handler_reads_once_and_writes_once (TABLE_NAME : option string)
  (w : world) (parsed : result value) (ctx : value) (st : state) :
  exists new,
    trace (snd (handler TABLE_NAME w parsed ctx st)) = trace st ++ new /\
    (calls new = [] \/
     (exists k, calls new = [DynamoGet TABLE_NAME k]) \/
     (exists k Item,
        calls new = [DynamoGet TABLE_NAME k; DynamoPut TABLE_NAME Item])).
Proof.
  paths TABLE_NAME w parsed ctx st
    ltac:(solve
      [ exists []; split; [symmetry; apply app_nil_r | left; reflexivity]
      | eexists; split; [rewrite <- ?app_assoc; reflexivity | cbn; eauto 7] ]).
  all: eexists; (split; [rewrite <- ?app_assoc; reflexivity | cbn; eauto 7]).
Qed.

(** X7.  Whatever it is invoked with, the handler either leaves the table
    as it was, or has replaced the one record under the order id of the
    payload by the record of its items; in that case, and in no other, it
    has written, and the response is the success. *)
Theorem table_changes_only_on_success (TABLE_NAME : option string)
  (w : world) (parsed : result value) (ctx : value) (st : state) :
  orders (snd (handler TABLE_NAME w parsed ctx st)) = orders st \/
  exists payload k P seen,
    parsed = ret payload /\
    orderId_of payload = ret k /\
    parsedItems_of payload = ret P /\
    fst (handler TABLE_NAME w parsed ctx st) =
      ret (respond 200
             (VObj [("message", VStr "Order processed successfully")])) /\
    orders (snd (handler TABLE_NAME w parsed ctx st)) =
      <[k := record k P (Date_toISOString (clock w)) seen]> (orders st).
Proof.
  paths TABLE_NAME w parsed ctx st ltac:(left; reflexivity).
  all: destruct (webhook_types_is_array _ _ _ Eseen) as [l ->].
  all: right; exists payload, k, P, l.
  all: split; [reflexivity|].
  all: split; [unfold orderId_of; rewrite Eorder; cbn; rewrite Eid; exact Ek|].
  all: split;
    [unfold parsedItems_of; rewrite Eorder; cbn; rewrite Eitems; exact EP|].
  all: split; reflexivity.
Qed.

End Coverage.
End OrderCoverage.

(** * Which services an invocation can reach *)

Module Routes.
Import JS Cloud StripeProcessor StripeFacts Traces.

#[local] Arguments stringify : simpl never.
#[local] Arguments respond : simpl never.
#[local] Arguments String.append : simpl never.

Section Confined.
Context {A B : Type}.
Variable S : list service.

Lemma confined_pure (a : A) : confined S (pure a).
Proof.
  intros st. split; [reflexivity|]. exists [].
  split; [symmetry; apply app_nil_r|constructor].
Qed.

Lemma confined_raise (e : exn) : confined S (raise (A := A) e).
Proof.
  intros st. split; [reflexivity|]. exists [].
  split; [symmetry; apply app_nil_r|constructor].
Qed.

Lemma confined_lift (r : result A) : confined S (lift r).
Proof.
  intros st. split; [reflexivity|]. exists [].
  split; [symmetry; apply app_nil_r|constructor].
Qed.

Lemma confined_emit (e : effect) : service_of e ∈ S -> confined S (emit e).
Proof.
  intros H st. split; [reflexivity|]. exists [e]. split; [reflexivity|].
  constructor; [exact H|constructor].
Qed.

Lemma confined_bind (m : M A) (k : A -> M B) :
  confined S m -> (forall a, confined S (k a)) -> confined S (bind m k).
Proof.
  intros Hm Hk st. unfold bind. destruct (Hm st) as (Ho & new & Ht & Hw).
  destruct (m st) as [[e|a] st1]; cbn in *.
  - split; [exact Ho|]. exists new. split; assumption.
  - destruct (Hk a st1) as (Ho' & new' & Ht' & Hw').
    split; [congruence|]. exists (new ++ new'). split.
    + rewrite Ht', Ht. symmetry. apply app_assoc.
    + apply Forall_app. split; assumption.
Qed.

Lemma confined_attempt (m : M A) : confined S m -> confined S (attempt m).
Proof.
  intros Hm st. unfold attempt. destruct (Hm st) as (Ho & new & Ht & Hw).
  destruct (m st) as [r st1]. cbn in *. split; [exact Ho|]. exists new.
  split; assumption.
Qed.

End Confined.

Lemma confined_dynamo_Get (S : list service) (w : world)
  (TableName : option string) (k : string) :
  TableRead ∈ S -> confined S (dynamo_Get w TableName k).
Proof.
  intros H. unfold dynamo_Get. apply confined_bind.
  - apply confined_emit. exact H.
  - intros _. destruct (dynamo_get_fault w k); [apply confined_raise|].
    intros st. split; [reflexivity|]. exists [].
    split; [symmetry; apply app_nil_r|constructor].
Qed.

Ltac among :=
  let s := fresh "s" in
  let H := fresh "H" in
  intros s H; apply list_elem_of_In in H; apply list_elem_of_In;
  cbn in *; tauto.

Ltac confine_step :=
  first
    [ apply confined_pure
    | apply confined_raise
    | apply confined_lift
    | apply confined_attempt
    | apply confined_dynamo_Get; solve [repeat constructor]
    | apply confined_emit; cbn; solve [repeat constructor]
    | apply confined_bind; [|intros]
    | match goal with
      | |- confined _ (if ?c then _ else _) => destruct c
      | |- confined _ (match ?x with _ => _ end) => destruct x
      end ].

Ltac confine := repeat confine_step.

#[local] Arguments get : simpl never.
#[local] Arguments ToString : simpl never.
#[local] Arguments toString : simpl never.
#[local] Arguments toUpperCase : simpl never.
#[local] Arguments required : simpl never.
#[local] Arguments missing_order_number : simpl never.
#[local] Arguments retryPayload : simpl never.
#[local] Arguments Message : simpl never.
#[local] Arguments Subject : simpl never.
#[local] Arguments invoice : simpl never.
#[local] Arguments truthy : simpl never.
#[local] Arguments falsy : simpl never.
#[local] Arguments differs_from : simpl never.

Ltac run :=
  cbv beta iota zeta
      delta [bind lift pure raise attempt emit console template rbind ret
             throw throw_on_charge];
  cbn.

(** The expression the next step of a computation waits for. *)
Ltac scrutinee t :=
  match t with
  | match ?x with _ => _ end => scrutinee x
  | match ?x with _ => _ end => x
  | ?f _ => scrutinee f
  end.

Ltac fork :=
  match goal with
  | |- context [snd ?m] =>
      let x := scrutinee m in destruct x eqn:?; run
  end.

Lemma calls_app (t u : list effect) : calls (t ++ u) = calls t ++ calls u.
Proof. apply List.filter_app. Qed.

Lemma calls_within (s : service) (t : list effect) :
  within [TheConsole; s] t -> within [s] (calls t).
Proof.
  unfold within, calls. induction 1 as [|e t He Ht IH]; cbn; [constructor|].
  destruct e; cbn in *; [exact IH|constructor; [|exact IH]..].
  all: apply list_elem_of_In in He; cbn in He.
  all: destruct He as [He|[He|[]]]; [discriminate He|].
  all: subst s; cbn; constructor.
Qed.

Section Routes.
Context {rt : Runtime}.
Variable env : environment.
Variable w : world.

Lemma invoice_calls_the_ledger b p c f k charge currency customerId orderId
  record :
  confined [TheConsole; Ledger]
    (invoice w b p c f k charge currency customerId orderId record).
Proof.
  unfold invoice, throw_on_charge, template, check_ok, fetch_, console.
  confine.
Qed.

Lemma sendRetryMessage_calls_the_queue (messageBody : value) :
  confined [TheConsole; Queue] (sendRetryMessage env w messageBody).
Proof. unfold sendRetryMessage, console. confine. Qed.

Lemma sendManualOrderNotification_calls_the_channel (charge : value) :
  confined [TheConsole; Channel] (sendManualOrderNotification env w charge).
Proof. unfold sendManualOrderNotification, template, console. confine. Qed.

Lemma confined_mono {A} (S S' : list service) (m : M A) :
  (forall s, s ∈ S -> s ∈ S') -> confined S m -> confined S' m.
Proof.
  intros Hs Hm st. destruct (Hm st) as (Ho & new & Ht & Hw).
  split; [exact Ho|]. exists new. split; [exact Ht|].
  unfold within in *. eapply Forall_impl; [exact Hw|].
  intros e He. apply Hs. exact He.
Qed.

Lemma processStripeEvent_confined (stripeEvent : value) :
  confined reachable (processStripeEvent env w stripeEvent).
Proof.
  unfold processStripeEvent, throw_on_charge, template, console, reachable.
  repeat first
    [ apply (confined_mono [TheConsole; Ledger]);
        [among|apply invoice_calls_the_ledger]
    | apply (confined_mono [TheConsole; Queue]);
        [among|apply sendRetryMessage_calls_the_queue]
    | apply (confined_mono [TheConsole; Channel]);
        [among|apply sendManualOrderNotification_calls_the_channel]
    | confine_step ].
Qed.

Lemma Promise_all_confined (bodies : list (result value)) :
  confined reachable (Promise_all (processRecord env w) bodies).
Proof.
  induction bodies as [|r rest IH]; cbn; [apply confined_pure|].
  apply confined_bind.
  - apply confined_attempt. unfold processRecord, console.
    repeat first [apply processStripeEvent_confined | confine_step].
  - intros x. apply confined_bind; [exact IH|]. intros xs. apply confined_pure.
Qed.

(** X8.  The Stripe processor never writes the table.  Whatever it is
    invoked with, a batch of queue records or one event, and however the
    services answer, the table is left as it was and nothing in the trace
    is a write: the processor reads the table, and calls the queue, the
    channel and the ledger. *)
Theorem processor_never_writes_the_table (event : StripeProcessor.event)
  (ctx : value) (st : state) :
  orders (snd (StripeProcessor.handler env w event ctx st)) = orders st /\
  exists new,
    trace (snd (StripeProcessor.handler env w event ctx st)) =
      trace st ++ new /\
    Forall (fun e => service_of e <> TableWrite) new.
Proof.
  assert (H : confined reachable (StripeProcessor.handler env w event ctx)).
  { unfold StripeProcessor.handler, set_callbackWaitsForEmptyEventLoop,
      console, reachable.
    repeat first
      [ apply Promise_all_confined
      | apply processStripeEvent_confined
      | confine_step ]. }
  destruct (H st) as (Ho & new & Ht & Hw). split; [exact Ho|].
  exists new. split; [exact Ht|]. unfold within in Hw.
  eapply Forall_impl; [exact Hw|]. intros e He Hwrite. cbn beta in He. rewrite Hwrite in He.
  apply list_elem_of_In in He. cbn in He.
  repeat destruct He as [He|He]; try discriminate He. exact He.
Qed.

(** X9.  One route per event.  Whatever the event and however the
    services answer, an event is handled along one route: it calls
    nothing; or it publishes one notification and nothing else; or it
    reads the table once, first, and then either queues one retry message
    or talks to the ledger only.  No event is both queued and invoiced,
    and none is notified about and looked up. *)
Theorem an_event_takes_one_route (stripeEvent : value) (st : state) :
  exists new,
    trace (snd (processStripeEvent env w stripeEvent st)) = trace st ++ new /\
    (calls new = [] \/
     (exists subject message,
        calls new = [SnsPublish (SNS_TOPIC_ARN env) subject message]) \/
     (exists k rest,
        calls new = DynamoGet (TABLE_NAME env) k :: rest /\
        ((exists body,
            rest = [SqsSendMessage (RETRY_QUEUE_URL env) body 5]) \/
         within [Ledger] rest))).
Proof.
  unfold processStripeEvent, sendManualOrderNotification, sendRetryMessage,
    dynamo_Get.
  run. repeat fork.
  all: try solve
    [ exists []; split; [symmetry; apply app_nil_r|left; reflexivity]
    | eexists; split; [rewrite <- ?app_assoc; reflexivity|]; cbn;
      first
        [ left; reflexivity
        | right; left; eexists; eexists; reflexivity
        | right; right; eexists; eexists; split; [reflexivity|];
          first [left; eexists; reflexivity|right; constructor] ] ].
  all: match goal with
       | |- context [invoice ?w' ?b ?p ?c ?f ?k ?ch ?cu ?ci ?oi ?r ?s] =>
           destruct (invoice_calls_the_ledger b p c f k ch cu ci oi r s)
             as (_ & new & Ht & Hw)
       end.
  all: cbn in Ht; rewrite Ht.
  all: eexists; split; [rewrite <- ?app_assoc; reflexivity|].
  all: rewrite !calls_app; cbn.
  all: right; right; eexists; eexists; split; [reflexivity|].
  all: right; apply calls_within; exact Hw.
Qed.

End Routes.
End Routes.

(** * More of the Stripe event processor *)

Module StripeCoverage.
Import JS Cloud StripeProcessor StripeFacts Traces Requests Routes.

#[local] Arguments get : simpl never.
#[local] Arguments ToString : simpl never.
#[local] Arguments toString : simpl never.
#[local] Arguments required : simpl never.
#[local] Arguments stringify : simpl never.
#[local] Arguments respond : simpl never.
#[local] Arguments missing_order_number : simpl never.
#[local] Arguments retryPayload : simpl never.
#[local] Arguments Message : simpl never.
#[local] Arguments Subject : simpl never.
#[local] Arguments String.append : simpl never.
#[local] Arguments lines : simpl never.
#[local] Arguments has_contacts : simpl never.
#[local] Arguments index0 : simpl never.
#[local] Arguments includes : simpl never.
#[local] Arguments split_pop : simpl never.
#[local] Arguments split_first : simpl never.
#[local] Arguments invoice : simpl never.

Lemma or_else_VStr (s : string) (b : JS.value) :
  s <> "" -> or_else (VStr s) b = VStr s.
Proof.
  intros H. unfold or_else. cbn.
  destruct (String.eqb_spec s ""); [contradiction|reflexivity].
Qed.

Lemma truthy_VStr (s : string) : s <> "" -> truthy (VStr s) = true.
Proof.
  intros H. cbn. destruct (String.eqb_spec s ""); [contradiction|reflexivity].
Qed.

Ltac configure H :=
  unfold configured in H; rewrite !andb_true_iff in H;
  destruct H as [[[[[[[?H ?H] ?H] ?H] ?H] ?H] ?H] ?H];
  repeat match goal with
    | H' : is_set ?v = true |- _ =>
        let s := fresh "s" in
        let E := fresh "E" in
        let R := fresh "R" in
        destruct (is_set_required v H') as (s & E & R); clear H'
    end.

Ltac run :=
  cbv beta iota zeta
      delta [bind lift pure raise attempt emit console template rbind ret
             throw throw_on_charge fetch_ check_ok];
  cbn.

Ltac step :=
  repeat first
    [ progress run
    | match goal with
      | H : get ?v ?k = _ |- context [get ?v ?k] => rewrite H
      | H : ToString ?v = _ |- context [ToString ?v] => rewrite H
      | H : toString ?v = _ |- context [toString ?v] => rewrite H
      | H : missing_order_number ?v = _
        |- context [missing_order_number ?v] => rewrite H
      | H : ?a <> ?b |- context [String.eqb ?a ?b] => rewrite (eqb_neq a b H)
      | H : ?c <> "" |- context [String.eqb (String_toUpperCase ?c) ""] =>
          rewrite (upper_nonempty c H)
      | H : ?c <> "" |- context [falsy (VStr (String_toUpperCase ?c))] =>
          rewrite (upper_truthy c H)
      | |- context [ToString (VStr ?s)] => rewrite (ToString_VStr s)
      | |- context [toString (VStr ?s)] => rewrite (toString_VStr s)
      | H : fetch ?w ?u ?m ?b = _ |- context [fetch ?w ?u ?m ?b] => rewrite H
      | H : resp_ok ?r = _ |- context [resp_ok ?r] => rewrite H
      | H : resp_json ?r = _ |- context [resp_json ?r] => rewrite H
      | H : resp_text ?r = _ |- context [resp_text ?r] => rewrite H
      | H : resp_Location ?r = _ |- context [resp_Location ?r] => rewrite H
      | H : dynamo_get_fault ?w ?k = _ |- context [dynamo_get_fault ?w ?k] =>
          rewrite H
      | H : orders ?st !! ?k = _ |- context [orders ?st !! ?k] => rewrite H
      | H : has_contacts ?v = _ |- context [has_contacts ?v] => rewrite H
      | H : index0 ?v = _ |- context [index0 ?v] => rewrite H
      | H : lines ?c ?n ?r = _ |- context [lines ?c ?n ?r] => rewrite H
      | H : own ?p ?k = _ |- context [own ?p ?k] => rewrite H
      | |- context [get (VObj ?props) ?k] =>
          rewrite (OrderFacts.get_VObj props k)
      | H : ?s <> "" |- context [or_else (VStr ?s) ?b] =>
          rewrite (or_else_VStr s b H)
      | H : ?s <> "" |- context [truthy (VStr ?s)] =>
          rewrite (truthy_VStr s H)
      | H : falsy ?v = _ |- context [falsy ?v] => rewrite H
      | H : truthy ?v = _ |- context [truthy ?v] => rewrite H
      | H : truthy ?v = ?b |- context [falsy ?v] => unfold falsy; rewrite H
      end ].

Ltac enter Hc Hev :=
  let data := fresh "data" in
  let code := fresh "code" in
  let props := fresh "props" in
  let Hd := fresh "Hd" in
  let Ho := fresh "Ho" in
  let Hcur := fresh "Hcur" in
  let Hne := fresh "Hne" in
  let Ht := fresh "Ht" in
  destruct Hev as [(data & Hd & Ho) (code & Hcur & Hne) Ht];
  destruct (get_VStr _ _ _ Hcur) as [props ->];
  configure Hc; unfold processStripeEvent;
  repeat match goal with
    | R : forall name, required ?v name = ret _ |- _ => rewrite !R; clear R
    end;
  step.

(** Past the checks of the event and the read of the table, with the
    record in hand. *)
Ltac join H :=
  let Hc := fresh "Hc" in
  let data := fresh "data" in
  let Hd := fresh "Hd" in
  let Ho := fresh "Ho" in
  let Hcur := fresh "Hcur" in
  let Hne := fresh "Hne" in
  let Ht := fresh "Ht" in
  let Hm := fresh "Hm" in
  let Hk := fresh "Hk" in
  let Hcust := fresh "Hcust" in
  let Htr := fresh "Htr" in
  let Hname := fresh "Hname" in
  let Hread := fresh "Hread" in
  let Hst := fresh "Hst" in
  let props := fresh "props" in
  let metadata := fresh "metadata" in
  let number := fresh "number" in
  let Hmeta := fresh "Hmeta" in
  let Hn := fresh "Hn" in
  let Hts := fresh "Hts" in
  let HTs := fresh "HTs" in
  destruct H as [Hc (data & Hd & Ho) [Hcur Hne] Ht Hm Hk Hcust Htr Hname
                   Hread Hst];
  destruct (order_reference_inv _ _ Hk) as (metadata & number & Hmeta & Hn & Hts);
  pose proof (toString_ToString _ _ Hts) as HTs;
  destruct (get_VStr _ _ _ Hcur) as [props ->];
  configure Hc; unfold processStripeEvent;
  repeat match goal with
    | R : forall name, required ?v name = ret _ |- _ => rewrite !R; clear R
    end.

(** Past the lookup of the customer too. *)
Ltac meet Hp :=
  let response := fresh "response" in
  let stripeCustomer := fresh "stripeCustomer" in
  let Hfetch := fresh "Hfetch" in
  let Hok := fresh "Hok" in
  let Hjson := fresh "Hjson" in
  let Hemail := fresh "Hemail" in
  let Hname := fresh "Hname" in
  let Haddress := fresh "Haddress" in
  let Hemail' := fresh "Hemail'" in
  let Hname' := fresh "Hname'" in
  let Hcountry := fresh "Hcountry" in
  let Hcountry' := fresh "Hcountry'" in
  destruct Hp as [(response & stripeCustomer & Hfetch & Hok & Hjson & Hemail
                     & Hname & Haddress) Hemail' Hname' [Hcountry Hcountry']].

Section Coverage.
Context {rt : Runtime}.
Variable env : environment.
Variable w : world.

Lemma not_set_required (v : option string) (name : string) :
  is_set v = false ->
  required v name =
    throw (Error (name +:+ " environment variable is not set")).
Proof.
  destruct v as [s|]; [|reflexivity]. unfold is_set, required.
  destruct (String.eqb s ""); [reflexivity|discriminate].
Qed.

(** X10.  With a required variable unset or empty, no event is processed:
    every event is refused with the error that names the first of the
    eight variables, in the order of the checks, that is unset or empty,
    before anything is logged or called. *)
Theorem missing_configuration_refuses_every_event :
  configured env = false ->
  exists name,
    first_unset (variables env) = Some name /\
    forall stripeEvent st,
      processStripeEvent env w stripeEvent st =
        (throw (Error (name +:+ " environment variable is not set")), st).
Proof.
  intros H. unfold configured in H.
  unfold processStripeEvent, variables. cbn [first_unset].
  repeat match goal with
    | |- context [required ?v ?name] =>
        lazymatch v with
        | context [env] =>
            destruct (is_set v) eqn:?;
            [ match goal with
              | E : is_set v = true |- _ =>
                  destruct (is_set_required v E) as (? & _ & ->)
              end
            | match goal with
              | E : is_set v = false |- _ =>
                  rewrite (not_set_required v name E);
                  eexists; split; [reflexivity|intros; reflexivity]
              end ]
        end
    end.
  discriminate H.
Qed.

(** X11.  When the lookup of the customer at Stripe is answered with a
    failure status, the event is rejected with the status and the text of
    the answer, and Fiken is not called. *)
Theorem customer_lookup_failure_stops_before_fiken
  (stripeEvent charge customerId : value) (code customer k key text : string)
  (attrs : list (string * value)) (response : Response) (st : state) :
  matched env w stripeEvent charge customerId code customer k attrs st ->
  stripeApiKey env = Some key ->
  fetch w (customer_url customer) "GET" VUndefined = ret response ->
  resp_ok response = false ->
  resp_text response = ret text ->
  fst (processStripeEvent env w stripeEvent st) =
    throw (api_error "Stripe" "fetch customer" response text) /\
  exists new,
    trace (snd (processStripeEvent env w stripeEvent st)) = trace st ++ new /\
    calls new =
      [DynamoGet (TABLE_NAME env) k;
       Fetch (customer_url customer) "GET" (bearer key) VUndefined].
Proof.
  intros Hj Hkey Hfetch Hok Htext. unfold customer_url, bearer in *.
  join Hj. rewrite Hkey in *.
  repeat match goal with H : Some _ = Some _ |- _ => injection H as <- end.
  unfold dynamo_Get, invoice. step.
  split; [reflexivity|].
  eexists. split; [rewrite <- ?app_assoc; reflexivity|reflexivity].
Qed.

Lemma get_truthy (v : value) (k : string) :
  truthy v = true -> exists x, get v k = ret x.
Proof. destruct v; try discriminate; unfold get; eauto. Qed.

Lemma or_else_object_truthy (a : value) :
  truthy (or_else a (VObj [])) = true.
Proof. unfold or_else. destruct (truthy a) eqn:E; [exact E|reflexivity]. Qed.

Lemma or_else_falsy (a b : value) :
  truthy a = false -> truthy b = false -> truthy (or_else a b) = false.
Proof. intros Ha Hb. unfold or_else. rewrite Ha. exact Hb. Qed.

(** X12.  A customer without an email, at Stripe or on the charge, stops
    the event with an error, and Fiken is not called. *)
Theorem customer_without_email_stops_before_fiken
  (stripeEvent charge customerId stripeCustomer email receipt : value)
  (code customer k key id : string)
  (attrs : list (string * value)) (response : Response) (st : state) :
  matched env w stripeEvent charge customerId code customer k attrs st ->
  stripeApiKey env = Some key ->
  charge_id charge = ret id ->
  fetch w (customer_url customer) "GET" VUndefined = ret response ->
  resp_ok response = true ->
  resp_json response = ret stripeCustomer ->
  get stripeCustomer "email" = ret email ->
  truthy email = false ->
  get charge "receipt_email" = ret receipt ->
  truthy receipt = false ->
  fst (processStripeEvent env w stripeEvent st) =
    throw (Error ("No customer email found for Charge " +:+ id +:+ ".")) /\
  exists new,
    trace (snd (processStripeEvent env w stripeEvent st)) = trace st ++ new /\
    calls new =
      [DynamoGet (TABLE_NAME env) k;
       Fetch (customer_url customer) "GET" (bearer key) VUndefined].
Proof.
  intros Hj Hkey Hid Hfetch Hok Hjson Hemail He Hreceipt Hr.
  unfold customer_url, bearer in *.
  destruct (charge_id_inv _ _ Hid) as (v & Hv & Hs).
  assert (exists name address,
            get stripeCustomer "name" = ret name /\
            get stripeCustomer "address" = ret address)
    as (name & address & Hn & Ha).
  { destruct stripeCustomer; try discriminate; unfold get; eauto. }
  destruct (get_truthy _ "country" (or_else_object_truthy address))
    as [country Hcountry].
  destruct (get_truthy _ "state" (or_else_object_truthy address))
    as [region Hregion].
  pose proof (or_else_falsy _ _ He Hr) as Hnone.
  join Hj. rewrite Hkey in *.
  repeat match goal with H : Some _ = Some _ |- _ => injection H as <- end.
  unfold dynamo_Get, invoice. step.
  split; [reflexivity|].
  eexists. split; [rewrite <- ?app_assoc; reflexivity|reflexivity].
Qed.

(** X13.  The invoice of a customer Fiken does not know.  With the
    order in the table, a customer profile from Stripe and every request
    accepted, the processor looks the customer up, finds no contact,
    creates one, creates the invoice for it from the stored items with the
    order id as reference, and sends the receipt: five requests in this
    order, each for what the one before returned, and a success.  The text
    line of the invoice is the English one for a customer outside
    Norway. *)
Theorem invoice_for_a_new_contact
  (stripeEvent charge customerId lines : value)
  (code customer k email name country : string)
  (bank payment slug token key location invoiceLocation : string)
  (attrs address : list (string * value)) (st : state) :
  matched env w stripeEvent charge customerId code customer k attrs st ->
  bankAccountCode env = Some bank ->
  paymentAccount env = Some payment ->
  companySlug env = Some slug ->
  fikenToken env = Some token ->
  stripeApiKey env = Some key ->
  profile w customer email name country address ->
  (exists response,
     fetch w (contacts_url slug customer) "GET" VUndefined = ret response /\
     resp_ok response = true /\
     resp_json response = ret (VArr [])) ->
  (exists response text,
     fetch w (create_contact_url slug) "POST"
       (stringify (contactPayload name email customerId address country)) =
       ret response /\
     resp_text response = ret text /\
     resp_ok response = true /\
     resp_Location response = Some location) ->
  location <> "" ->
  StripeProcessor.lines (VStr (String_toUpperCase code)) (isNorwegian country)
    (VObj attrs) = ret lines ->
  (exists response,
     (forall text,
        fetch w (invoices_url slug) "POST"
          (stringify
             (invoicePayload w lines bank payment
                (VStr (split_pop "/" "" location))
                (String_toUpperCase code) text k)) = ret response) /\
     resp_ok response = true /\
     resp_Location response = Some invoiceLocation) ->
  invoiceLocation <> "" ->
  (exists response,
     fetch w (send_url slug) "POST"
       (stringify
          (sendInvoicePayload (split_pop "/" "" invoiceLocation) email name
             country)) = ret response /\
     resp_ok response = true) ->
  fst (processStripeEvent env w stripeEvent st) =
    ret (respond 200
           (VObj [("message",
                   VStr "Contact and invoice created and sent via email successfully")])) /\
  exists new text,
    trace (snd (processStripeEvent env w stripeEvent st)) = trace st ++ new /\
    (isNorwegian country = false ->
     text = "Invoice for products purchased via Pattern Magicians.") /\
    calls new =
      [DynamoGet (TABLE_NAME env) k;
       Fetch (customer_url customer) "GET" (bearer key) VUndefined;
       Fetch (contacts_url slug customer) "GET" (bearer token) VUndefined;
       Fetch (create_contact_url slug) "POST" (bearer token)
         (stringify (contactPayload name email customerId address country));
       Fetch (invoices_url slug) "POST" (bearer token)
         (stringify
            (invoicePayload w lines bank payment
               (VStr (split_pop "/" "" location))
               (String_toUpperCase code) text k));
       Fetch (send_url slug) "POST" (bearer token)
         (stringify
            (sendInvoicePayload (split_pop "/" "" invoiceLocation) email name
               country))].
Proof.
  intros Hj Hbank Hpayment Hslug Htoken Hkey Hp
    (contacts & Hcontacts & Hcok & Hcjson)
    (created & text & Hcreate & Hctext & Hcrok & Hcloc) Hloc Hlines
    (invoiced & Hinvoice & Hiok & Hiloc) Hiloc'
    (sent & Hsend & Hsok).
  meet Hp.
  unfold customer_url, contacts_url, create_contact_url, invoices_url,
    send_url, bearer, contactPayload, invoicePayload, sendInvoicePayload,
    isNorwegian in *.
  assert (Hnone : has_contacts (VArr []) = ret false) by reflexivity.
  join Hj.
  rewrite Hbank, Hpayment, Hslug, Htoken, Hkey in *.
  repeat match goal with H : Some _ = Some _ |- _ => injection H as <- end.
  unfold dynamo_Get, invoice. step. rewrite Hinvoice. step.
  split; [reflexivity|].
  eexists. eexists. split; [rewrite <- ?app_assoc; reflexivity|].
  split; [|reflexivity].
  intros ->. reflexivity.
Qed.

(** X14.  The invoice of a customer Fiken knows.  When the lookup at
    Fiken returns contacts, no contact is created: the invoice is made out
    to the first contact returned, under its [id] or else its
    [contactId], and the receipt is sent, in four requests. *)
Theorem invoice_for_an_existing_contact
  (stripeEvent charge customerId lines contacts first id contactId : value)
  (code customer k email name country shown : string)
  (bank payment slug token key invoiceLocation : string)
  (attrs address : list (string * value)) (st : state) :
  matched env w stripeEvent charge customerId code customer k attrs st ->
  bankAccountCode env = Some bank ->
  paymentAccount env = Some payment ->
  companySlug env = Some slug ->
  fikenToken env = Some token ->
  stripeApiKey env = Some key ->
  profile w customer email name country address ->
  (exists response,
     fetch w (contacts_url slug customer) "GET" VUndefined = ret response /\
     resp_ok response = true /\
     resp_json response = ret contacts) ->
  has_contacts contacts = ret true ->
  index0 contacts = ret first ->
  get first "id" = ret id ->
  get first "contactId" = ret contactId ->
  ToString (or_else id contactId) = ret shown ->
  StripeProcessor.lines (VStr (String_toUpperCase code)) (isNorwegian country)
    (VObj attrs) = ret lines ->
  (exists response,
     (forall text,
        fetch w (invoices_url slug) "POST"
          (stringify
             (invoicePayload w lines bank payment (or_else id contactId)
                (String_toUpperCase code) text k)) = ret response) /\
     resp_ok response = true /\
     resp_Location response = Some invoiceLocation) ->
  invoiceLocation <> "" ->
  (exists response,
     fetch w (send_url slug) "POST"
       (stringify
          (sendInvoicePayload (split_pop "/" "" invoiceLocation) email name
             country)) = ret response /\
     resp_ok response = true) ->
  fst (processStripeEvent env w stripeEvent st) =
    ret (respond 200
           (VObj [("message",
                   VStr "Contact and invoice created and sent via email successfully")])) /\
  exists new text,
    trace (snd (processStripeEvent env w stripeEvent st)) = trace st ++ new /\
    (isNorwegian country = false ->
     text = "Invoice for products purchased via Pattern Magicians.") /\
    calls new =
      [DynamoGet (TABLE_NAME env) k;
       Fetch (customer_url customer) "GET" (bearer key) VUndefined;
       Fetch (contacts_url slug customer) "GET" (bearer token) VUndefined;
       Fetch (invoices_url slug) "POST" (bearer token)
         (stringify
            (invoicePayload w lines bank payment (or_else id contactId)
               (String_toUpperCase code) text k));
       Fetch (send_url slug) "POST" (bearer token)
         (stringify
            (sendInvoicePayload (split_pop "/" "" invoiceLocation) email name
               country))].
Proof.
  intros Hj Hbank Hpayment Hslug Htoken Hkey Hp
    (answer & Hcontacts & Hcok & Hcjson) Hsome Hfirst Hid Hcid Hshown Hlines
    (invoiced & Hinvoice & Hiok & Hiloc) Hiloc'
    (sent & Hsend & Hsok).
  meet Hp.
  unfold customer_url, contacts_url, create_contact_url, invoices_url,
    send_url, bearer, contactPayload, invoicePayload, sendInvoicePayload,
    isNorwegian in *.
  join Hj.
  rewrite Hbank, Hpayment, Hslug, Htoken, Hkey in *.
  repeat match goal with H : Some _ = Some _ |- _ => injection H as <- end.
  unfold dynamo_Get, invoice. step. rewrite Hinvoice. step.
  split; [reflexivity|].
  eexists. eexists. split; [rewrite <- ?app_assoc; reflexivity|].
  split; [|reflexivity].
  intros ->. reflexivity.
Qed.

(** X15.  No receipt without an invoice.  When Fiken refuses the invoice,
    the event is rejected with the status and the text of the refusal,
    and the request that sends the receipt is not made: the invoice
    request is the last one. *)
Theorem refused_invoice_sends_no_receipt
  (stripeEvent charge customerId lines contacts first id contactId : value)
  (code customer k email name country shown reason : string)
  (bank payment slug token key : string)
  (attrs address : list (string * value)) (refusal : Response) (st : state) :
  matched env w stripeEvent charge customerId code customer k attrs st ->
  bankAccountCode env = Some bank ->
  paymentAccount env = Some payment ->
  companySlug env = Some slug ->
  fikenToken env = Some token ->
  stripeApiKey env = Some key ->
  profile w customer email name country address ->
  (exists response,
     fetch w (contacts_url slug customer) "GET" VUndefined = ret response /\
     resp_ok response = true /\
     resp_json response = ret contacts) ->
  has_contacts contacts = ret true ->
  index0 contacts = ret first ->
  get first "id" = ret id ->
  get first "contactId" = ret contactId ->
  ToString (or_else id contactId) = ret shown ->
  StripeProcessor.lines (VStr (String_toUpperCase code)) (isNorwegian country)
    (VObj attrs) = ret lines ->
  (forall text,
     fetch w (invoices_url slug) "POST"
       (stringify
          (invoicePayload w lines bank payment (or_else id contactId)
             (String_toUpperCase code) text k)) = ret refusal) ->
  resp_ok refusal = false ->
  resp_text refusal = ret reason ->
  fst (processStripeEvent env w stripeEvent st) =
    throw (api_error "Fiken" "create invoice" refusal reason) /\
  exists new text,
    trace (snd (processStripeEvent env w stripeEvent st)) = trace st ++ new /\
    calls new =
      [DynamoGet (TABLE_NAME env) k;
       Fetch (customer_url customer) "GET" (bearer key) VUndefined;
       Fetch (contacts_url slug customer) "GET" (bearer token) VUndefined;
       Fetch (invoices_url slug) "POST" (bearer token)
         (stringify
            (invoicePayload w lines bank payment (or_else id contactId)
               (String_toUpperCase code) text k))].
Proof.
  intros Hj Hbank Hpayment Hslug Htoken Hkey Hp
    (answer & Hcontacts & Hcok & Hcjson) Hsome Hfirst Hid Hcid Hshown Hlines
    Hinvoice Hiok Hreason.
  meet Hp.
  unfold customer_url, contacts_url, create_contact_url, invoices_url,
    send_url, bearer, contactPayload, invoicePayload, sendInvoicePayload,
    isNorwegian in *.
  join Hj.
  rewrite Hbank, Hpayment, Hslug, Htoken, Hkey in *.
  repeat match goal with H : Some _ = Some _ |- _ => injection H as <- end.
  unfold dynamo_Get, invoice. step. rewrite Hinvoice. step.
  split; [reflexivity|].
  eexists. eexists. split; [rewrite <- ?app_assoc; reflexivity|reflexivity].
Qed.

(** X16.  A table that cannot be read is not a missing order.  When the
    read of the order fails, the event is rejected with the error of the
    processor; nothing is queued for retry and the ledger is not called. *)
Theorem unreadable_table_queues_nothing
  (stripeEvent charge customerId : value) (k : string) (err : exn)
  (st : state) :
  configured env = true ->
  charge_succeeded stripeEvent charge ->
  missing_order_number charge = ret false ->
  get charge "customer" = ret customerId ->
  truthy customerId = true ->
  order_reference charge = ret k ->
  dynamo_get_fault w k = Some err ->
  fst (processStripeEvent env w stripeEvent st) =
    throw (Error "Error reading from database") /\
  orders (snd (processStripeEvent env w stripeEvent st)) = orders st /\
  exists new,
    trace (snd (processStripeEvent env w stripeEvent st)) = trace st ++ new /\
    calls new = [DynamoGet (TABLE_NAME env) k].
Proof.
  intros Hc Hev Hm Hcust Htr Hk Hfault.
  destruct (order_reference_inv _ _ Hk) as (metadata & n & Hmeta & Hn & Hts).
  pose proof (toString_ToString _ _ Hts) as HTs.
  enter Hc Hev. step.
  unfold dynamo_Get. step.
  split; [reflexivity|]. split; [reflexivity|].
  eexists. split; [rewrite <- ?app_assoc; reflexivity|reflexivity].
Qed.

(** X17.  An event without its charge ([data.object] missing, or null)
    is rejected before anything is called. *)
Theorem missing_charge_is_rejected
  (stripeEvent data charge : value) (st : state) :
  configured env = true ->
  get stripeEvent "data" = ret data ->
  get data "object" = ret charge ->
  truthy charge = false ->
  processStripeEvent env w stripeEvent st =
    (throw (Error "Charge object missing in Stripe event"),
     {| orders := orders st; trace := trace st ++ [Console Log] |}).
Proof.
  intros Hc Hd Ho Hcharge.
  configure Hc. unfold processStripeEvent.
  repeat match goal with
    | R : forall name, required ?v name = ret _ |- _ => rewrite !R; clear R
    end.
  step. reflexivity.
Qed.

(** X18.  An order that is in the table is never queued.  Whatever
    Stripe and Fiken answer, a payment whose order is stored reads the
    table and then talks to the ledger only: no retry message, no
    notification, no write. *)
Theorem a_stored_order_is_never_queued
  (stripeEvent charge customerId : value) (code customer k : string)
  (attrs : list (string * value)) (st : state) :
  matched env w stripeEvent charge customerId code customer k attrs st ->
  exists new rest,
    trace (snd (processStripeEvent env w stripeEvent st)) = trace st ++ new /\
    calls new = DynamoGet (TABLE_NAME env) k :: rest /\
    within [Ledger] rest.
Proof.
  intros Hj. join Hj. unfold dynamo_Get. step.
  match goal with
  | |- context [invoice ?w' ?b ?p ?c ?f ?key ?ch ?cu ?ci ?oi ?r ?s] =>
      destruct (invoice_calls_the_ledger w' b p c f key ch cu ci oi r s)
        as (_ & new & Htrace & Hledger)
  end.
  cbn in Htrace. rewrite Htrace.
  eexists. eexists. split; [rewrite <- ?app_assoc; reflexivity|].
  rewrite !calls_app. cbn. split; [reflexivity|].
  apply calls_within. exact Hledger.
Qed.

End Coverage.
End StripeCoverage.

(** * The retry loop *)

Module RetryLoop.
Import JS Cloud StripeProcessor StripeFacts Traces.

#[local] Arguments stringify : simpl never.
#[local] Arguments respond : simpl never.
#[local] Arguments retryPayload : simpl never.
#[local] Arguments processStripeEvent : simpl never.

Section Loop.
Context {rt : Runtime}.
Variable env : environment.

(** The record of a retry message hands the processor the event that was
    queued. *)
Lemma processRecord_retryPayload (w w0 : world) (k : string)
  (stripeEvent : value) (st : state) :
  processRecord env w (ret (retryPayload w0 k stripeEvent)) st =
    processStripeEvent env w stripeEvent
      {| orders := orders st; trace := trace st ++ [Console Log] |}.
Proof. reflexivity. Qed.

(** X19.  A retry that finds no order is queued again.  When a retry
    message, queued under the clock of [w0], is delivered and the order
    is still not in the table, the batch is reported as processed, and
    the event is queued once more under the same order number, with
    nothing that tells the second message from the first but its
    timestamp: as long as the order stays away the event goes round. *)
Theorem a_retried_event_is_queued_again
  (w w0 : world) (stripeEvent charge customerId : value) (k : string)
  (response : list (string * value)) (ctx : list (string * value))
  (st : state) :
  configured env = true ->
  charge_succeeded stripeEvent charge ->
  missing_order_number charge = ret false ->
  get charge "customer" = ret customerId ->
  truthy customerId = true ->
  order_reference charge = ret k ->
  dynamo_get_fault w k = None ->
  orders st !! k = None ->
  sqs_send w (stringify (retryPayload w k stripeEvent)) = ret response ->
  StripeProcessor.handler env w (Records [ret (retryPayload w0 k stripeEvent)])
    (VObj ctx) st =
    (ret (respond 200
            (VObj [("message",
                    VStr "All SQS records processed successfully");
                   ("results",
                    VArr [response_value
                            (respond 200
                               (VObj [("error",
                                       VStr "Order not found, event queued for retry")]))])])),
     {| orders := orders st;
        trace := trace st ++
                 [Console Log; Console Log; Console Log;
                  DynamoGet (TABLE_NAME env) k; Console Err;
                  SqsSendMessage (RETRY_QUEUE_URL env)
                    (stringify (retryPayload w k stripeEvent)) 5;
                  Console Log; Console Log] |}).
Proof.
  intros Hc Hev Hm Hcust Htr Hk Hfault Habsent Hsent.
  unfold StripeProcessor.handler, Promise_all.
  cbv beta iota zeta
      delta [bind attempt set_callbackWaitsForEmptyEventLoop pure].
  rewrite processRecord_retryPayload.
  rewrite (retry_run env w _ _ _ _
             {| orders := orders st; trace := trace st ++ [Console Log] |}
             Hc Hev Hm Hcust Htr Hk Hfault Habsent).
  rewrite Hsent. cbn. rewrite <- !app_assoc. reflexivity.
Qed.

End Loop.
End RetryLoop.

(** * The pieces the processor computes with *)

Module Pieces.
Import JS Cloud KonverzkyOrderConsumer StripeProcessor.

Lemma append_nil_r (s : string) : s +:+ "" = s.
Proof.
  induction s as [|c s IH]; [reflexivity|].
  change (String c (s +:+ "") = String c s). f_equal. exact IH.
Qed.

Lemma append_assoc (a b c : string) : (a +:+ b) +:+ c = a +:+ (b +:+ c).
Proof.
  induction a as [|x a IH]; [reflexivity|].
  change (String x ((a +:+ b) +:+ c) = String x (a +:+ (b +:+ c))).
  f_equal. exact IH.
Qed.

Lemma In_append (x : ascii) (a b : string) :
  In x (list_ascii_of_string (a +:+ b)) ->
  In x (list_ascii_of_string a) \/ In x (list_ascii_of_string b).
Proof.
  induction a as [|c a IH]; [right; assumption|].
  change (String c a +:+ b) with (String c (a +:+ b)). cbn.
  intros [H|H]; [left; left; assumption|].
  destruct (IH H); [left; right; assumption|right; assumption].
Qed.

Lemma append_cons (c : ascii) (a b : string) :
  String c a +:+ b = String c (a +:+ b).
Proof. reflexivity. Qed.

Lemma append_nil_l (s : string) : "" +:+ s = s.
Proof. reflexivity. Qed.

Lemma split_pop_spec (sep : ascii) (s cur : string) :
  ~ In sep (list_ascii_of_string cur) ->
  ~ In sep (list_ascii_of_string (split_pop sep cur s)) /\
  exists before,
    cur +:+ s = before +:+ split_pop sep cur s /\
    (before = "" \/ exists p, before = p +:+ String sep "").
Proof.
  revert cur. induction s as [|c s IH]; intros cur Hcur; cbn.
  - split; [exact Hcur|]. exists "".
    split; [rewrite append_nil_l; apply append_nil_r|left; reflexivity].
  - destruct (Ascii.eqb_spec c sep) as [->|Hne].
    + destruct (IH "" (fun H => H)) as (Hno & before & Heq & Hend).
      rewrite append_nil_l in Heq.
      split; [exact Hno|].
      exists (cur +:+ String sep before). split.
      * rewrite append_assoc, append_cons, <- Heq. reflexivity.
      * right. destruct Hend as [->|(p & ->)].
        -- exists cur. reflexivity.
        -- exists (cur +:+ String sep p).
           rewrite append_assoc, append_cons. reflexivity.
    + destruct (IH (cur +:+ String c "")) as (Hno & before & Heq & Hend).
      { intros H. destruct (In_append _ _ _ H) as [H'|[H'|[]]];
          [exact (Hcur H')|exact (Hne H')]. }
      split; [exact Hno|]. exists before. split; [|exact Hend].
      rewrite <- Heq. rewrite append_assoc. reflexivity.
Qed.

(** X20.  The id taken from a [Location] header is its last segment:
    the header ends with it, what comes before it is empty or ends with a
    slash, and there is no slash in it. *)
Theorem the_id_is_the_last_segment (location : string) :
  ~ In "/"%char (list_ascii_of_string (split_pop "/" "" location)) /\
  exists before,
    location = before +:+ split_pop "/" "" location /\
    (before = "" \/ exists p, before = p +:+ "/").
Proof. exact (split_pop_spec "/" location "" (fun H => H)). Qed.

(** X21.  The date of an invoice is what an ISO timestamp has before its
    first [T]: the timestamp starts with it, goes on with a [T] or ends
    there, and there is no [T] in it. *)
Theorem the_date_is_the_first_segment (timestamp : string) :
  ~ In "T"%char (list_ascii_of_string (split_first "T" timestamp)) /\
  exists rest,
    timestamp = split_first "T" timestamp +:+ rest /\
    (rest = "" \/ exists time, rest = String "T" time).
Proof.
  induction timestamp as [|c s (Hno & rest & Heq & Hrest)]; cbn.
  - split; [intros []|]. exists "". split; [reflexivity|left; reflexivity].
  - destruct (Ascii.eqb_spec c "T") as [->|Hne]; cbn.
    + split; [intros []|]. exists (String "T" s).
      split; [reflexivity|right; eauto].
    + split; [intros [H|H]; [exact (Hne H)|exact (Hno H)]|].
      exists rest. split; [|exact Hrest].
      rewrite append_cons, <- Heq. reflexivity.
Qed.

Section Items.
Context {rt : Runtime}.

(** X22.  What the order consumer keeps of an item is enough for the
    invoice: the line made from the kept fields is the line made from
    the item as it was delivered. *)
Theorem kept_fields_make_the_same_line (currency : value)
  (isNorwegian : bool) (item kept : value) :
  parsedItem item = ret kept ->
  line currency isNorwegian kept = line currency isNorwegian item.
Proof.
  destruct item; try discriminate; intros H; injection H as <-; reflexivity.
Qed.

End Items.
End Pieces.

(** * More scenarios, run *)

Module MoreRuns.
Import JS Cloud Scenarios Cases Traces Requests.
Import KonverzkyOrderConsumer StripeProcessor OrderFacts StripeFacts.
Import OrderCoverage Routes StripeCoverage RetryLoop Pieces.

#[local] Existing Instance AsciiRuntime.runtime.

Lemma unsupported_webhook_type_is_ignored_witness :
  KonverzkyOrderConsumer.handler (Some "KonverzkyOrders") calm
    (ret order_cancelled) lambda_context empty =
    (ret (respond 200
            (VObj [("message", VStr "Ignored unsupported webhook_type")])),
     {| orders := ∅; trace := [Console Log; Console Log] |}).
Proof.
  exact (unsupported_webhook_type_is_ignored (Some "KonverzkyOrders") calm
           order_cancelled (VStr "order_cancelled") _ empty
           eq_refl eq_refl).
Defined.

Lemma read_failure_is_a_server_error_witness :
  KonverzkyOrderConsumer.handler (Some "KonverzkyOrders") unreadable
    (ret (order_created "123" "order_paid" [widget 9.99]))
    lambda_context empty =
    (ret (respond 500 (VObj [("error", VStr "Error reading from database")])),
     {| orders := ∅;
        trace := [Console Log; DynamoGet (Some "KonverzkyOrders") "123";
                  Console Err] |}).
Proof.
  exact (read_failure_is_a_server_error (Some "KonverzkyOrders") unreadable
           (order_created "123" "order_paid" [widget 9.99]) "order_paid"
           "123" [widget 9.99] outage _ empty
           eq_refl eq_refl eq_refl eq_refl eq_refl eq_refl).
Defined.

Lemma write_failure_keeps_the_table_witness :
  snd (KonverzkyOrderConsumer.handler (Some "KonverzkyOrders") unwritable
         (ret (order_created "123" "upsell_paid" [widget 19.99]))
         lambda_context (stored 9.99)) =
    {| orders := orders (stored 9.99);
       trace :=
         [Console Log; DynamoGet (Some "KonverzkyOrders") "123"] ++
         compared (stored 9.99) "123" [widget 19.99] ++
         [DynamoPut (Some "KonverzkyOrders")
            (VObj (record "123" [widget 19.99] "2025-11-03T07:20:00.123Z"
                     [VStr "order_paid"; VStr "upsell_paid"]));
          Console Err] |}.
Proof.
  exact (f_equal snd
           (write_failure_keeps_the_table (Some "KonverzkyOrders") unwritable
              (order_created "123" "upsell_paid" [widget 19.99])
              "upsell_paid" "123" [widget 19.99]
              [VStr "order_paid"; VStr "upsell_paid"] outage _ (stored 9.99)
              eq_refl eq_refl eq_refl eq_refl eq_refl eq_refl eq_refl
              eq_refl)).
Defined.

Lemma parsedItem_is_a_projection_witness :
  parsedItem (widget 9.99) = ret (widget 9.99).
Proof.
  exact (parsedItem_is_a_projection (widget 9.99) (widget 9.99) eq_refl).
Defined.

Lemma kept_fields_make_the_same_line_witness :
  line (VStr "USD") false (widget 9.99) =
    line (VStr "USD") false (widget_delivered 9.99).
Proof.
  exact (kept_fields_make_the_same_line (VStr "USD") false
           (widget_delivered 9.99) (widget 9.99) eq_refl).
Defined.

Lemma missing_configuration_refuses_every_event_witness :
  processStripeEvent env_without_token calm (payment_confirmed "123")
    (stored 9.99) =
    (throw (Error "FIKEN_API_TOKEN environment variable is not set"),
     stored 9.99).
Proof.
  destruct (missing_configuration_refuses_every_event env_without_token calm
              eq_refl) as (name & Hfirst & Hrefused).
  injection Hfirst as <-.
  exact (Hrefused (payment_confirmed "123") (stored 9.99)).
Defined.

(** Scenario A's payment, with its order in the table. *)
Lemma matched_scenario (w : world) (price : float) :
  dynamo_get_fault w "123" = None ->
  matched env w (payment_confirmed "123") (paid "123") (VStr "cus_1")
    "usd" "cus_1" "123"
    (record "123" [widget price] "2025-11-03T07:20:00.123Z"
       [VStr "order_paid"])
    (stored price).
Proof.
  intros Hread. constructor.
  - reflexivity.
  - eexists. split; reflexivity.
  - split; [reflexivity|discriminate].
  - reflexivity.
  - reflexivity.
  - reflexivity.
  - reflexivity.
  - reflexivity.
  - reflexivity.
  - exact Hread.
  - reflexivity.
Defined.

Lemma customer_lookup_failure_stops_before_fiken_witness :
  fst (processStripeEvent env stripe_down (payment_confirmed "123")
         (stored 9.99)) =
    throw (api_error "Stripe" "fetch customer"
             (refusal 503 "upstream unavailable") "upstream unavailable").
Proof.
  exact (proj1
           (customer_lookup_failure_stops_before_fiken env stripe_down
              _ _ _ _ _ _ "sk_test" "upstream unavailable" _
              (refusal 503 "upstream unavailable") _
              (matched_scenario stripe_down 9.99 eq_refl)
              eq_refl eq_refl eq_refl eq_refl)).
Defined.

Lemma customer_without_email_stops_before_fiken_witness :
  fst (processStripeEvent env anonymous (payment_confirmed "123")
         (stored 9.99)) =
    throw (Error "No customer email found for Charge ch_1.").
Proof.
  exact (proj1
           (customer_without_email_stops_before_fiken env anonymous
              _ _ _
              (VObj [("name", VStr "Ada");
                     ("address", VObj [("country", VStr "US")])])
              VUndefined VUndefined _ _ _ "sk_test" "ch_1" _
              (answer 200
                 (VObj [("name", VStr "Ada");
                        ("address", VObj [("country", VStr "US")])])
                 None) _
              (matched_scenario anonymous 9.99 eq_refl)
              eq_refl eq_refl eq_refl eq_refl eq_refl eq_refl eq_refl
              eq_refl eq_refl)).
Defined.

Lemma unreadable_table_queues_nothing_witness :
  fst (processStripeEvent env unreadable (payment_confirmed "123")
         (stored 9.99)) =
    throw (Error "Error reading from database").
Proof.
  exact (proj1
           (unreadable_table_queues_nothing env unreadable
              (payment_confirmed "123") _ (VStr "cus_1") "123" outage
              (stored 9.99) eq_refl (Runs.charge_succeeded_scenario _)
              eq_refl eq_refl eq_refl eq_refl eq_refl)).
Defined.

Lemma missing_charge_is_rejected_witness :
  processStripeEvent env calm event_without_charge empty =
    (throw (Error "Charge object missing in Stripe event"),
     {| orders := ∅; trace := [Console Log] |}).
Proof.
  exact (missing_charge_is_rejected env calm event_without_charge (VObj [])
           VUndefined empty eq_refl eq_refl eq_refl eq_refl).
Defined.

Lemma a_stored_order_is_never_queued_witness :
  exists new rest,
    trace (snd (processStripeEvent env stripe_down (payment_confirmed "123")
                  (stored 9.99))) = trace (stored 9.99) ++ new /\
    calls new = DynamoGet (Some "KonverzkyOrders") "123" :: rest /\
    within [Ledger] rest.
Proof.
  exact (a_stored_order_is_never_queued env stripe_down _ _ _ _ _ _ _ _
           (matched_scenario stripe_down 9.99 eq_refl)).
Defined.

Lemma a_retried_event_is_queued_again_witness :
  fst (StripeProcessor.handler env calm
         (Records [ret (retryPayload calm "999" (payment_confirmed "999"))])
         lambda_context empty) =
    ret (respond 200
           (VObj [("message",
                   VStr "All SQS records processed successfully");
                  ("results",
                   VArr [response_value
                           (respond 200
                              (VObj [("error",
                                      VStr "Order not found, event queued for retry")]))])])).
Proof.
  exact (f_equal fst
           (a_retried_event_is_queued_again env calm calm
              (payment_confirmed "999") _ (VStr "cus_1") "999" _ _ empty
              eq_refl (Runs.charge_succeeded_scenario _) eq_refl eq_refl
              eq_refl eq_refl eq_refl eq_refl eq_refl)).
Defined.

(** The customer of Scenario A, as Stripe has it. *)
Lemma profile_scenario (w : world) :
  fetch w (customer_url "cus_1") "GET" VUndefined =
    fetch calm (customer_url "cus_1") "GET" VUndefined ->
  profile w "cus_1" "ada@example.com" "Ada" "US" [("country", VStr "US")].
Proof.
  intros Hfetch. constructor.
  - eexists. eexists. split; [rewrite Hfetch; reflexivity|].
    repeat split; reflexivity.
  - discriminate.
  - discriminate.
  - split; [reflexivity|discriminate].
Defined.

(** Scenario A. *)
Lemma invoice_for_a_new_contact_witness :
  fst (processStripeEvent env calm (payment_confirmed "123") (stored 9.99)) =
    ret (respond 200
           (VObj [("message",
                   VStr "Contact and invoice created and sent via email successfully")])).
Proof.
  refine (proj1
            (invoice_for_a_new_contact env calm _ _ _
               (VArr [widget_line 999]) _ _ _ _ _ _
               "1920:10001" "1920:10001" "pattern-magicians" "fiken-token"
               "sk_test" "https://api.fiken.no/contacts/77"
               "https://api.fiken.no/invoices/4711" _ _ _
               (matched_scenario calm 9.99 eq_refl)
               eq_refl eq_refl eq_refl eq_refl eq_refl
               (profile_scenario calm eq_refl) _ _ _ eq_refl _ _ _)).
  - eexists. repeat split; reflexivity.
  - eexists. eexists. repeat split; reflexivity.
  - discriminate.
  - eexists. split; [intros text; reflexivity|]. split; reflexivity.
  - discriminate.
  - eexists. split; reflexivity.
Defined.

(** Scenario A, for a customer Fiken has as contact 42. *)
Lemma invoice_for_an_existing_contact_witness :
  fst (processStripeEvent env known (payment_confirmed "123") (stored 9.99)) =
    ret (respond 200
           (VObj [("message",
                   VStr "Contact and invoice created and sent via email successfully")])).
Proof.
  refine (proj1
            (invoice_for_an_existing_contact env known _ _ _
               (VArr [widget_line 999]) (VArr [contact_42]) contact_42
               VUndefined (VNum 42) _ _ _ _ _ _ "42"
               "1920:10001" "1920:10001" "pattern-magicians" "fiken-token"
               "sk_test" "https://api.fiken.no/invoices/4711" _ _ _
               (matched_scenario known 9.99 eq_refl)
               eq_refl eq_refl eq_refl eq_refl eq_refl
               (profile_scenario known eq_refl) _
               eq_refl eq_refl eq_refl eq_refl eq_refl eq_refl _ _ _)).
  - eexists. repeat split; reflexivity.
  - eexists. split; [intros text; reflexivity|]. split; reflexivity.
  - discriminate.
  - eexists. split; reflexivity.
Defined.

(** Scenario A, with the invoice refused. *)
Lemma refused_invoice_sends_no_receipt_witness :
  fst (processStripeEvent env refusing (payment_confirmed "123")
         (stored 9.99)) =
    throw (api_error "Fiken" "create invoice"
             (refusal 400 "Invalid bank account") "Invalid bank account").
Proof.
  refine (proj1
            (refused_invoice_sends_no_receipt env refusing _ _ _
               (VArr [widget_line 999]) (VArr [contact_42]) contact_42
               VUndefined (VNum 42) _ _ _ _ _ _ "42" "Invalid bank account"
               "1920:10001" "1920:10001" "pattern-magicians" "fiken-token"
               "sk_test" _ _ (refusal 400 "Invalid bank account") _
               (matched_scenario refusing 9.99 eq_refl)
               eq_refl eq_refl eq_refl eq_refl eq_refl
               (profile_scenario refusing eq_refl) _
               eq_refl eq_refl eq_refl eq_refl eq_refl eq_refl _
               eq_refl eq_refl)).
  - eexists. repeat split; reflexivity.
  - intros text. reflexivity.
Defined.

End MoreRuns.
